(** * curtin [apply_net]: a shallow embedding of [curtin/commands/apply_net.py]

    The development follows the source file top to bottom:

    - [PyStr]: the Python string and path primitives the module relies on
      ([str.startswith], [str.strip], [str.splitlines], [str.join],
      [os.path.normpath]);
    - [Py]: a state-and-exception monad over the world the module acts on
      (target filesystem, log records, standard error, calls to the
      collaborators of [curtin.net] and [curtin.util]);
    - the functions of [apply_net.py] themselves, under their own names;
    - the properties of the specification, one theorem per claim;
    - the helpers of [curtin/block/lvm.py] and [curtin/version.py], over the
      collaborators they call ([util.subp], [float], the process
      environment), and further properties of all three modules. *)

From Stdlib Require Import ZArith String Ascii List Bool Lia.
From stdpp Require Import base option list strings gmap fin_maps.

Local Open Scope Z_scope.

(* ===================================================================== *)
(** ** Python strings and POSIX paths *)
(* ===================================================================== *)

(** A Python [str] is modelled as a Rocq [string]; each character stands for
    the code point of the same number, so the model covers text whose code
    points are all below 256. *)
Module PyStr.

(** The one-character strings that cannot be typed inside a literal. *)
Definition nl : string := String "010"%char "".
Definition dq : string := String "034"%char "".

(** [s.startswith(p)] *)
Definition startswith (s p : string) : bool := String.prefix p s.

(** [str.isspace] on one character: the code points below 256 that
    Python 3 treats as whitespace. *)
Definition isspace (c : ascii) : bool :=
  match c with
  | "009" | "010" | "011" | "012" | "013"
  | "028" | "029" | "030" | "031" | " "
  | "133" | "160" => true
  | _ => false
  end%char.

(** The code points below 256 at which [str.splitlines] breaks a line. *)
Definition islinebreak (c : ascii) : bool :=
  match c with
  | "010" | "011" | "012" | "013"
  | "028" | "029" | "030" | "133" => true
  | _ => false
  end%char.

Fixpoint lstrip (s : string) : string :=
  match s with
  | "" => ""
  | String c r => if isspace c then lstrip r else s
  end.

Fixpoint rstrip (s : string) : string :=
  match s with
  | "" => ""
  | String c r =>
      match rstrip r with
      | "" => if isspace c then "" else String c ""
      | r' => String c r'
      end
  end.

(** [s.strip()] *)
Definition strip (s : string) : string := rstrip (lstrip s).

(** [s.splitlines()]: [cur] is the line being read, in reverse.  A line
    break closes the current line (a carriage return takes a directly
    following line feed with it); text after the last break is a line of its
    own only when it is not empty. *)
Fixpoint splitlines_go (cur : string) (s : string) : list string :=
  match s with
  | "" => match cur with "" => [] | _ => [String.rev cur] end
  | String c r =>
      if islinebreak c then
        String.rev cur ::
          match c, r with
          | "013"%char, String "010"%char r' => splitlines_go "" r'
          | _, _ => splitlines_go "" r
          end
      else splitlines_go (String c cur) r
  end.

Definition splitlines (s : string) : list string := splitlines_go "" s.

(** [sep.join(parts)] *)
Fixpoint join (sep : string) (parts : list string) : string :=
  match parts with
  | [] => ""
  | [p] => p
  | p :: ps => p +:+ sep +:+ join sep ps
  end.

(** [s.split(sep)] for a one-character separator. *)
Fixpoint split_go (sep : ascii) (cur : string) (s : string) : list string :=
  match s with
  | "" => [String.rev cur]
  | String c r =>
      if Ascii.eqb c sep then String.rev cur :: split_go sep "" r
      else split_go sep (String c cur) r
  end.

Definition split (sep : ascii) (s : string) : list string := split_go sep "" s.

(** [os.path.sep] *)
Definition sep : string := "/".

(** [s * n] *)
Fixpoint mul (s : string) (n : nat) : string :=
  match n with
  | O => ""
  | S n' => s +:+ mul s n'
  end.

(** One turn of the loop of [posixpath.normpath] over the components. *)
Definition normpath_step (initial_slashes : nat) (new_comps : list string)
    (comp : string) : list string :=
  if bool_decide (comp = "") || bool_decide (comp = ".") then new_comps
  else if negb (bool_decide (comp = ".."))
          || (bool_decide (initial_slashes = 0%nat) && bool_decide (new_comps = []))
          || (negb (bool_decide (new_comps = []))
              && bool_decide (last new_comps = Some ".."))
  then new_comps ++ [comp]
  else removelast new_comps.

(** [os.path.normpath(path)] on a POSIX system. *)
Definition normpath (path : string) : string :=
  if bool_decide (path = "") then "."
  else
    let initial_slashes :=
      if startswith path sep then
        if startswith path "//" && negb (startswith path "///") then 2%nat
        else 1%nat
      else 0%nat in
    let comps := fold_left (normpath_step initial_slashes) (split "/" path) [] in
    let path' := mul sep initial_slashes +:+ join sep comps in
    if bool_decide (path' = "") then "." else path'.

End PyStr.

Import PyStr.

(* ===================================================================== *)
(** ** The world of the installer and the monad of its commands *)
(* ===================================================================== *)

(** The exceptions that occur in the module.  [SystemExit] and
    [KeyboardInterrupt] derive from [BaseException] only; the others derive
    from [Exception]. *)
Inductive exn : Type :=
| Exception (msg : string)
| ValueError (msg : string) (arg : string)
| UnboundLocalError (name : string)
| KeyError (key : string)
| OSError (msg : string)
| SystemExit (code : Z)
| KeyboardInterrupt.

(** [isinstance(e, Exception)]: what an [except Exception:] clause catches. *)
Definition is_Exception (e : exn) : bool :=
  match e with
  | SystemExit _ | KeyboardInterrupt => false
  | _ => true
  end.

(** What a bare [except:] clause catches. *)
Definition is_BaseException (e : exn) : bool := true.

(** How a call ends. *)
Inductive completion (A : Type) : Type :=
| Returns (a : A)
| Raises (e : exn).
Arguments Returns {A} a.
Arguments Raises {A} e.

(** An entry of the target filesystem, seen through [curtin.util]: a regular
    file with its text and permission bits, or something that exists but
    cannot be read as text (a directory, a file without read permission, bytes
    that do not decode). *)
Inductive entry : Type :=
| Regular (content : string) (mode : Z)
| Irregular.

Inductive level : Type := DEBUG | INFO | WARNING | ERROR.

(** The values that are handed to the logger. *)
Inductive pyval : Type :=
| VStr (s : string)
| VInt (z : Z)
| VList (l : list string)
| VDict (d : gmap string Z).

(** A record of the logger [LOG]: level, message object, the arguments of a
    deferred [%]-format, and the exception that [LOG.exception] attaches. *)
Record log_record : Type := LogRecord {
  levelname : level;
  msg : pyval;
  args : list pyval;
  exc_info : option exn
}.

Section World.

(** The canonical network model is opaque to this module. *)
Context {NetworkModel : Type}.

(** A call to a collaborator outside this module. *)
Inductive call : Type :=
| from_state_file_call (path : string)
| parse_net_config_call (path : string)
| render_network_state_call (target : string) (network_state : NetworkModel)
    (postup_alias : option bool)
| get_package_version_call (pkg : string) (target : string).

Record world : Type := World {
  fs : gmap string entry;
  log : list log_record;
  stderr : string;
  calls : list call
}.

Definition with_fs (f : gmap string entry → gmap string entry) (w : world) : world :=
  {| fs := f (fs w); log := log w; stderr := stderr w; calls := calls w |}.
Definition with_log (r : log_record) (w : world) : world :=
  {| fs := fs w; log := log w ++ [r]; stderr := stderr w; calls := calls w |}.
Definition with_stderr (s : string) (w : world) : world :=
  {| fs := fs w; log := log w; stderr := stderr w +:+ s; calls := calls w |}.
Definition with_call (c : call) (w : world) : world :=
  {| fs := fs w; log := log w; stderr := stderr w; calls := calls w ++ [c] |}.

(** A command: it runs in a world and ends by returning or raising. *)
Definition Py (A : Type) : Type := world → completion A * world.

Definition ret {A} (a : A) : Py A := fun w => (Returns a, w).

Definition bind {A B} (m : Py A) (k : A → Py B) : Py B :=
  fun w =>
    match m w with
    | (Returns a, w') => k a w'
    | (Raises e, w') => (Raises e, w')
    end.

(** [raise e] *)
Definition raise {A} (e : exn) : Py A := fun w => (Raises e, w).

(** [try: body  except <catches>: handler] *)
Definition try_except {A} (body : Py A) (catches : exn → bool)
    (handler : exn → Py A) : Py A :=
  fun w =>
    match body w with
    | (Returns a, w') => (Returns a, w')
    | (Raises e, w') => if catches e then handler e w' else (Raises e, w')
    end.

End World.

Arguments call : clear implicits.
Arguments world : clear implicits.
Arguments Py : clear implicits.

Declare Scope py_scope.
Delimit Scope py_scope with py.
Notation "x <- m ;; k" := (bind m (fun x => k))
  (at level 100, m at next level, k at level 200, right associativity) : py_scope.
Notation "m ;; k" := (bind m (fun _ => k))
  (at level 100, k at level 200, right associativity) : py_scope.
Local Open Scope py_scope.

(** The dictionary that [util.load_command_environment()] returns, with the
    keys this module reads; each holds the value of an environment variable,
    or [None]. *)
Record command_environment : Type := CommandEnvironment {
  state_target : option string;
  state_network_state : option string;
  state_network_config : option string
}.

(** The collaborators the module imports from [curtin.net], [curtin.util] and
    [curtin.config].  Their code is not part of this module; each is taken as
    given, as a function of its arguments and of the filesystem it reads. *)
Class Collaborators (NetworkModel : Type) : Type := {
  (** [net.network_state.from_state_file(path)] *)
  on_from_state_file : string → gmap string entry → completion NetworkModel;
  (** [net.parse_net_config(path)] *)
  on_parse_net_config : string → gmap string entry → completion NetworkModel;
  (** [net.render_network_state(target, network_state, postup_alias)]: how it
      ends, and the filesystem it leaves. *)
  on_render_network_state :
    string → NetworkModel → option bool → gmap string entry →
    completion unit * gmap string entry;
  (** [util.get_package_version(pkg, target)]: [None], or the dictionary of
      the numeric fields of the version. *)
  on_get_package_version :
    string → string → gmap string entry → completion (option (gmap string Z));
  (** [config.value_as_boolean(value)] *)
  on_value_as_boolean : string → bool;
  (** [util.load_command_environment()] *)
  on_load_command_environment : command_environment
}.

(** The [argparse] namespace built from [CMD_ARGUMENTS]. *)
Record Namespace : Type := MkNamespace {
  args_net_state : option string;
  args_target : option string;
  args_postup_alias : option string;
  args_net_config : option string
}.

(** Truth value of an optional string: [None] and the empty string are
    false.  [if_truthy v] is the string itself when [v] is true. *)
Definition if_truthy (v : option string) : option string :=
  match v with
  | None => None
  | Some s => if bool_decide (s = "") then None else Some s
  end.

Definition truthy (v : option string) : bool := bool_decide (is_Some (if_truthy v)).

(** [[out(x) for x in xs if cond(x)]] *)
Fixpoint list_comprehension {A B} (out : A → B) (cond : A → bool) (xs : list A)
    : list B :=
  match xs with
  | [] => []
  | x :: xs' =>
      if cond x then out x :: list_comprehension out cond xs'
      else list_comprehension out cond xs'
  end.

Section Primitives.

Context {NetworkModel : Type} {collab : Collaborators NetworkModel}.

(** [for x in xs: body(x)] *)
Fixpoint for_each {A} (xs : list A) (body : A → Py NetworkModel unit)
    : Py NetworkModel unit :=
  match xs with
  | [] => ret tt
  | x :: xs' => body x ;; for_each xs' body
  end.

(** [d[k]] *)
Definition getitem {V} (d : gmap string V) (k : string) : Py NetworkModel V :=
  match d !! k with
  | Some v => ret v
  | None => raise (KeyError k)
  end.

(** *** [os] and [sys] *)

Definition os_path_exists (path : string) : Py NetworkModel bool :=
  fun w => (Returns (bool_decide (is_Some (fs w !! path))), w).

Definition sys_stderr_write (s : string) : Py NetworkModel unit :=
  fun w => (Returns tt, with_stderr s w).

Definition sys_exit {A} (code : Z) : Py NetworkModel A := raise (SystemExit code).

(** *** [curtin.util] file helpers *)

(** Modelled from the spec: [util.load_file], whose code is outside this
    module.  Reading returns the text of a regular file and fails on
    anything else (section 4.4, step 3: permission, I/O, encoding). *)
Definition util_load_file (path : string) : Py NetworkModel string :=
  fun w =>
    match fs w !! path with
    | Some (Regular content _) => (Returns content, w)
    | Some Irregular => (Raises (OSError "cannot read"), w)
    | None => (Raises (OSError "No such file or directory"), w)
    end.

(** Modelled from the spec: [util.del_file], whose code is outside this
    module.  It removes the file (section 4.4, step 6); on a target the
    installer owns exclusively (section 5) the removal succeeds. *)
Definition util_del_file (path : string) : Py NetworkModel unit :=
  fun w => (Returns tt, with_fs (delete path) w).

(** Modelled from the spec: [util.write_file], whose code is outside this
    module.  It overwrites the file with the given text and permission bits
    (sections 4.4 and 4.5); without [mode] the file gets no executable bit
    ([0o644]).  A write that fails (section 4.5, [WriteError]) is not
    modelled: what is stated of a write below is the filesystem it leaves
    when it goes through, never that it goes through. *)
Definition util_write_file (filename content : string) (mode : Z)
    : Py NetworkModel unit :=
  fun w => (Returns tt, with_fs <[filename := Regular content mode]> w).

Definition default_mode : Z := 420.

(** *** The logger [LOG] *)

Definition emit (l : level) (m : pyval) (a : list pyval) (e : option exn)
    : Py NetworkModel unit :=
  fun w => (Returns tt, with_log (LogRecord l m a e) w).

Definition LOG_debug (m : pyval) (a : list pyval) : Py NetworkModel unit :=
  emit DEBUG m a None.
Definition LOG_info (m : pyval) (a : list pyval) : Py NetworkModel unit :=
  emit INFO m a None.
Definition LOG_warn (m : pyval) (a : list pyval) : Py NetworkModel unit :=
  emit WARNING m a None.
(** [LOG.exception(msg)] inside a handler of exception [e]. *)
Definition LOG_exception (m : pyval) (e : exn) : Py NetworkModel unit :=
  emit ERROR m [] (Some e).

(** *** Calls to the collaborators, recorded in [calls] *)

Definition net_from_state_file (path : string) : Py NetworkModel NetworkModel :=
  fun w =>
    (on_from_state_file path (fs w), with_call (from_state_file_call path) w).

Definition net_parse_net_config (path : string) : Py NetworkModel NetworkModel :=
  fun w =>
    (on_parse_net_config path (fs w), with_call (parse_net_config_call path) w).

Definition net_render_network_state (target : string) (network_state : NetworkModel)
    (postup_alias : option bool) : Py NetworkModel unit :=
  fun w =>
    let w1 := with_call (render_network_state_call target network_state postup_alias) w in
    let '(r, fs') := on_render_network_state target network_state postup_alias (fs w) in
    (r, with_fs (fun _ => fs') w1).

Definition util_get_package_version (pkg target : string)
    : Py NetworkModel (option (gmap string Z)) :=
  fun w =>
    (on_get_package_version pkg target (fs w),
     with_call (get_package_version_call pkg target) w).

End Primitives.

(* ===================================================================== *)
(** ** [curtin/commands/apply_net.py] *)
(* ===================================================================== *)

(** The text of a triple-quoted literal whose lines all end in a newline. *)
Definition text (lines : list string) : string :=
  join "" (map (fun l => l +:+ nl) lines).

(** A word between double quotes. *)
Definition q (s : string) : string := dq +:+ s +:+ dq.

Definition IFUPDOWN_IPV6_MTU_PRE_HOOK : string := text [
  "#!/bin/sh -x";
  "# injected by curtin installer";
  "";
  "[ " +:+ q "$IFACE" +:+ " != " +:+ q "lo" +:+ " ] || exit 0";
  "";
  "# Trigger only if MTU configured";
  "[ -n " +:+ q "$IF_MTU" +:+ " ] || exit 0";
  "";
  "CUR_DEV_MTU=$(/bin/cat /sys/class/net/$IFACE/mtu ||:)";
  "CUR_IPV6_MTU=$(sysctl -n net.ipv6.conf.$IFACE.mtu ||:)";
  "[ -n " +:+ q "$CUR_DEV_MTU" +:+ " ] && echo $CUR_DEV_MTU > /run/network/$IFACE_dev.mtu";
  "[ -n " +:+ q "$CUR_IPV6_MTU" +:+ " ] && echo $CUR_IPV6_MTU > /run/network/$IFACE_ipv6.mtu";
  "exit 0"
].

Definition IFUPDOWN_IPV6_MTU_POST_HOOK : string := text [
  "#!/bin/sh -x";
  "# injected by curtin installer";
  "";
  "[ " +:+ q "$IFACE" +:+ " != " +:+ q "lo" +:+ " ] || exit 0";
  "";
  "# Trigger only if MTU configured";
  "[ -n " +:+ q "$IF_MTU" +:+ " ] || exit 0";
  "";
  "PRE_DEV_MTU=$(cat /run/network/$IFACE_dev.mtu)";
  "CUR_DEV_MTU=$(/bin/cat /sys/class/net/$IFACE/mtu)";
  "PRE_IPV6_MTU=$(cat /run/network/$IFACE_ipv6.mtu)";
  "CUR_IPV6_MTU=$(sysctl -n net.ipv6.conf.$IFACE.mtu)";
  "";
  "if [ " +:+ q "$ADDRFAM" +:+ " = " +:+ q "inet6" +:+ " ]; then";
  "  # We need to check the underlying interface MTU and";
  "  # raise it if the IPV6 mtu is larger";
  "  if [ $CUR_DEV_MTU -lt $IF_MTU ]; then";
  "      /bin/ip link set $IFACE mtu $IF_MTU";
  "  fi";
  "  /sbin/sysctl -q -e -w net.ipv6.conf.$IFACE.mtu=$IF_MTU";
  "";
  "elif [ " +:+ q "$ADDRFAM" +:+ " = " +:+ q "inet" +:+ " ]; then";
  "  # handle the clobber case where inet mtu changes v6 mtu";
  "  # ifupdown will already have set dev mtu, so lower mtu";
  "  # if needed.  If v6 mtu was larger, it get's clamped down";
  "  # to the dev MTU value.";
  "  if [ $PRE_IPV6_MTU -lt $CUR_IPV6_MTU ]; then";
  "    /sbin/sysctl -q -e -w net.ipv6.conf.$IFACE.mtu=$PRE_IPV6_MTU";
  "  fi";
  "fi";
  "exit 0"
].

(** The comprehension both reconcilers apply to the text they read:
    [[f.strip() for f in contents.splitlines() if not f.startswith("#")]]. *)
Definition content_lines (contents : string) : list string :=
  list_comprehension strip (fun f => negb (startswith f "#")) (splitlines contents).

(** The default values of the [path] parameters. *)
Definition ipv6_privacy_path : string := "etc/sysctl.d/10-ipv6-privacy.conf".
Definition legacy_eth0_path : string := "etc/network/interfaces.d/eth0.cfg".
Definition default_prehookfn : string := "etc/network/if-pre-up.d/mtuipv6".
Definition default_posthookfn : string := "etc/network/if-up.d/mtuipv6".

(** The [known_contents] of the two reconcilers and the text that replaces
    the IPv6 privacy-extensions file. *)
Definition ipv6_known_contents : list string :=
  ["net.ipv6.conf.all.use_tempaddr = 2";
   "net.ipv6.conf.default.use_tempaddr = 2"].

Definition eth0_known_contents : list string :=
  ["auto eth0"; "iface eth0 inet dhcp"].

Definition curtin_contents : string :=
  join nl
    ["# IPv6 Privacy Extensions (RFC 4941)";
     "# Disabled by curtin";
     "# net.ipv6.conf.all.use_tempaddr = 2";
     "# net.ipv6.conf.default.use_tempaddr = 2"].

Section ApplyNet.

Context {NetworkModel : Type} {collab : Collaborators NetworkModel}.

Definition detect_postup_alias (target : string) : Py NetworkModel bool :=
  returned <-
    try_except
      (LOG_info (VStr "Checking target for version of ifupdown package") [] ;;
       pkg_ver <- util_get_package_version "ifupdown" target ;;
       pkg_ver <-
         match pkg_ver with
         | None => raise (Exception "Failed to get package version")
         | Some d => ret d
         end ;;
       LOG_debug (VStr ("get_package_version:" +:+ nl +:+ "%s")) [VDict pkg_ver] ;;
       semantic_version <- getitem pkg_ver "semantic_version" ;;
       major <- getitem pkg_ver "major" ;;
       minor <- getitem pkg_ver "minor" ;;
       micro <- getitem pkg_ver "micro" ;;
       LOG_debug (VStr "ifupdown version is %s (major=%s minor=%s micro=%s)")
         [VInt semantic_version; VInt major; VInt minor; VInt micro] ;;
       semantic_version <- getitem pkg_ver "semantic_version" ;;
       if semantic_version <? 806 then ret (Some true) else ret None)
      is_Exception
      (fun _ =>
         LOG_warn (VStr "Failed reading ifupdown pkg version (using defaults)") [] ;;
         ret None) ;;
  match returned with
  | Some b => ret b
  | None => ret false
  end.

Definition _patch_ifupdown_ipv6_mtu_hook (target prehookfn posthookfn : string)
    : Py NetworkModel unit :=
  let contents : gmap string string :=
    <["prehook" := IFUPDOWN_IPV6_MTU_PRE_HOOK]>
      (<["posthook" := IFUPDOWN_IPV6_MTU_POST_HOOK]> ∅) in
  let hookfn : gmap string string :=
    <["prehook" := prehookfn]> (<["posthook" := posthookfn]> ∅) in
  for_each ["prehook"; "posthook"] (fun hook =>
    fn <- getitem hookfn hook ;;
    let cfg := join sep [target; fn] in
    LOG_info (VStr "Injecting fix for ipv6 mtu settings: %s") [VStr cfg] ;;
    body <- getitem contents hook ;;
    util_write_file cfg body 493).

Definition _disable_ipv6_privacy_extensions (target path : string)
    : Py NetworkModel unit :=
  if startswith path "/" then
    raise (ValueError "path parameter must not start with '/': %s" path)
  else
    let cfg := normpath (join sep [target; path]) in
    found <- os_path_exists cfg ;;
    if negb found then
      LOG_warn (VStr "Failed to find legacy conf file %s") [VStr cfg]
    else
      let bmsg := "Disabling IPv6 privacy extensions config may not apply." in
      try_except
        (contents <- util_load_file cfg ;;
         let known_contents := ipv6_known_contents in
         let lines := content_lines contents in
         if bool_decide (lines = known_contents) then
           LOG_info (VStr "deleting file: %s") [VStr cfg] ;;
           util_del_file cfg ;;
           util_write_file cfg curtin_contents default_mode
         else
           LOG_info (VStr "skipping, content didnt match") [] ;;
           LOG_info (VList lines) [] ;;
           LOG_info (VList known_contents) [])
        is_BaseException
        (fun e =>
           let msg := bmsg +:+ " " +:+ cfg +:+ " exists, but could not be read." in
           LOG_exception (VStr msg) e).

Definition _maybe_remove_legacy_eth0 (target path : string) : Py NetworkModel unit :=
  let cfg := normpath (join sep [target; path]) in
  found <- os_path_exists cfg ;;
  if negb found then
    LOG_warn (VStr "Failed to find legacy conf file %s") [VStr cfg]
  else
    let bmsg := "Dynamic networking config may not apply." in
    msg <-
      try_except
        (contents <- util_load_file cfg ;;
         let known_contents := eth0_known_contents in
         let lines := content_lines contents in
         if bool_decide (lines = known_contents) then
           util_del_file cfg ;;
           ret (Some ("removed " +:+ cfg +:+ " with known contents"))
         else
           ret (Some (bmsg +:+ " '" +:+ cfg +:+ "' exists with user configured content.")))
        is_BaseException
        (fun e =>
           let msg := bmsg +:+ " " +:+ cfg +:+ " exists, but could not be read." in
           LOG_exception (VStr msg) e ;;
           ret None) ;;
    match msg with
    | Some msg => LOG_warn (VStr msg) []
    | None => ret tt
    end.

Definition apply_net (target network_state network_config : option string)
    (postup_alias : option bool) : Py NetworkModel unit :=
  (if bool_decide (network_state = None) && bool_decide (network_config = None) then
     let msg := "Must provide at least config or state" in
     sys_stderr_write (msg +:+ nl) ;;
     raise (Exception msg)
   else ret tt) ;;
  target <-
    match target with
    | None =>
        let msg := "Must provide target" in
        sys_stderr_write (msg +:+ nl) ;;
        raise (Exception msg)
    | Some t => ret t
    end ;;
  ns <-
    match if_truthy network_state with
    | Some f => v <- net_from_state_file f ;; ret (Some v)
    | None =>
        match if_truthy network_config with
        | Some c => v <- net_parse_net_config c ;; ret (Some v)
        | None => ret None
        end
    end ;;
  ns <-
    match ns with
    | Some v => ret v
    | None => raise (UnboundLocalError "ns")
    end ;;
  net_render_network_state target ns postup_alias ;;
  _maybe_remove_legacy_eth0 target legacy_eth0_path ;;
  LOG_info (VStr "Attempting to remove ipv6 privacy extensions") [] ;;
  _disable_ipv6_privacy_extensions target ipv6_privacy_path ;;
  _patch_ifupdown_ipv6_mtu_hook target default_prehookfn default_posthookfn.

(** The dictionary [state] of [apply_net_main] after its three conditional
    assignments from the command line. *)
Definition command_state (args : Namespace) : command_environment :=
  let state := on_load_command_environment in
  let state :=
    match args_target args with
    | Some t =>
        {| state_target := Some t;
           state_network_state := state_network_state state;
           state_network_config := state_network_config state |}
    | None => state
    end in
  let state :=
    match args_net_state args with
    | Some f =>
        {| state_target := state_target state;
           state_network_state := Some f;
           state_network_config := state_network_config state |}
    | None => state
    end in
  match args_net_config args with
  | Some c =>
      {| state_target := state_target state;
         state_network_state := state_network_state state;
         state_network_config := Some c |}
  | None => state
  end.

(** The value [apply_net_main] gives to [postup_alias]. *)
Definition effective_postup_alias (args : Namespace) (target : string)
    : Py NetworkModel bool :=
  match args_postup_alias args with
  | Some a => ret (on_value_as_boolean a)
  | None => detect_postup_alias target
  end.

(** [log.basicConfig] only configures the logger and leaves no trace in the
    world. *)
Definition apply_net_main (args : Namespace) : Py NetworkModel unit :=
  let state := command_state args in
  target <-
    match state_target state with
    | None =>
        sys_stderr_write
          ("Unable to find target.  Use --target or set TARGET_MOUNT_POINT" +:+ nl) ;;
        sys_exit 2
    | Some t => ret t
    end ;;
  (if negb (truthy (state_network_config state))
      && negb (truthy (state_network_state state)) then
     sys_stderr_write ("Must provide at least config or state" +:+ nl) ;;
     sys_exit 2
   else ret tt) ;;
  postup_alias <- effective_postup_alias args target ;;
  LOG_info (VStr "Applying network configuration") [] ;;
  try_except
    (apply_net (Some target) (state_network_state state)
       (state_network_config state) (Some postup_alias))
    is_Exception
    (fun e => LOG_exception (VStr "failed to apply network config") e) ;;
  LOG_info (VStr "Applied network configuration successfully") [] ;;
  sys_exit 0.

End ApplyNet.

(** The exit status of the process that runs a command to its end:
    [sys.exit(code)] gives [code], any other exception that escapes gives 1. *)
Definition exit_status {A} (c : completion A) : Z :=
  match c with
  | Returns _ => 0
  | Raises (SystemExit code) => code
  | Raises _ => 1
  end.


(* ===================================================================== *)
(** ** The outcomes of a reconciliation *)
(* ===================================================================== *)

(** The specification names the branch a reconciler takes.  The code returns
    [None] on every branch and tells the branches apart by the records it
    logs, so the outcome of a run is read from the records the run added. *)
Inductive ReconciliationOutcome : Type :=
| Removed
| RemovedAndAnnotated
| Preserved
| Absent
| Unreadable.

#[global] Instance exn_eq_dec : EqDecision exn.
Proof. solve_decision. Defined.
#[global] Instance entry_eq_dec : EqDecision entry.
Proof. solve_decision. Defined.
#[global] Instance level_eq_dec : EqDecision level.
Proof. solve_decision. Defined.
#[global] Instance pyval_eq_dec : EqDecision pyval.
Proof. solve_decision. Defined.
#[global] Instance log_record_eq_dec : EqDecision log_record.
Proof. solve_decision. Defined.

(** The records a command added to the log between [w] and [w']. *)
Definition emitted {NetworkModel} (w w' : world NetworkModel) : list log_record :=
  drop (length (log w)) (log w').

(** The record of the missing file, shared by both reconcilers. *)
Definition absent_record (cfg : string) : log_record :=
  LogRecord WARNING (VStr "Failed to find legacy conf file %s") [VStr cfg] None.

(** Reading the outcome of [_maybe_remove_legacy_eth0] on the file [cfg]. *)
Definition eth0_outcome (cfg : string) (records : list log_record)
    : option ReconciliationOutcome :=
  match records with
  | [r] =>
      if bool_decide (r = absent_record cfg) then Some Absent
      else if bool_decide
           (r = LogRecord WARNING
                  (VStr ("removed " +:+ cfg +:+ " with known contents")) [] None)
      then Some Removed
      else if bool_decide
           (r = LogRecord WARNING
                  (VStr ("Dynamic networking config may not apply." +:+ " '" +:+ cfg
                         +:+ "' exists with user configured content.")) [] None)
      then Some Preserved
      else if bool_decide (levelname r = ERROR) && bool_decide (is_Some (exc_info r))
      then Some Unreadable
      else None
  | _ => None
  end.

(** Reading the outcome of [_disable_ipv6_privacy_extensions] on [cfg]: the
    first record of the run names the branch. *)
Definition ipv6_outcome (cfg : string) (records : list log_record)
    : option ReconciliationOutcome :=
  match records with
  | r :: _ =>
      if bool_decide (r = absent_record cfg) then Some Absent
      else if bool_decide (r = LogRecord INFO (VStr "deleting file: %s") [VStr cfg] None)
      then Some RemovedAndAnnotated
      else if bool_decide (r = LogRecord INFO (VStr "skipping, content didnt match") [] None)
      then Some Preserved
      else if bool_decide (levelname r = ERROR) && bool_decide (is_Some (exc_info r))
      then Some Unreadable
      else None
  | [] => None
  end.

(** The extraction of content lines as the specification words it: split
    into lines, strip every line, discard the lines that then begin with the
    comment marker, keep the order. *)
Definition spec_content_lines (contents : string) : list string :=
  filter (fun l => startswith l "#" = false) (map strip (splitlines contents)).

(* ===================================================================== *)
(** ** Auxiliary definitions for the statements *)
(* ===================================================================== *)

(** The file a reconciler works on. *)
Definition cfg_of (target path : string) : string :=
  normpath (join sep [target; path]).

(** The filesystem a run of [_maybe_remove_legacy_eth0] leaves. *)
Definition eth0_fs_after (cfg : string) (fs : gmap string entry) : gmap string entry :=
  match fs !! cfg with
  | Some (Regular content _) =>
      if bool_decide (content_lines content = eth0_known_contents)
      then delete cfg fs else fs
  | _ => fs
  end.

(** The filesystem a run of [_disable_ipv6_privacy_extensions] leaves when
    the path is accepted. *)
Definition ipv6_fs_after (cfg : string) (fs : gmap string entry) : gmap string entry :=
  match fs !! cfg with
  | Some (Regular content _) =>
      if bool_decide (content_lines content = ipv6_known_contents)
      then <[cfg := Regular curtin_contents default_mode]> fs else fs
  | _ => fs
  end.

(** The two extractions, on a list of lines. *)
Definition code_lines (ls : list string) : list string :=
  list_comprehension strip (fun f => negb (startswith f "#")) ls.

Definition spec_lines (ls : list string) : list string :=
  filter (fun l => startswith l "#" = false) (map strip ls).

(** The semantic version of a dictionary that carries every field
    [detect_postup_alias] reads. *)
Definition semantic_of (pkg_ver : gmap string Z) : option Z :=
  match pkg_ver !! "semantic_version", pkg_ver !! "major",
        pkg_ver !! "minor", pkg_ver !! "micro" with
  | Some semantic_version, Some _, Some _, Some _ => Some semantic_version
  | _, _, _, _ => None
  end.

(** The decision, as a function of how the probe ends. *)
Definition decision (probe : completion (option (gmap string Z))) : bool :=
  match probe with
  | Returns (Some pkg_ver) =>
      match semantic_of pkg_ver with
      | Some semantic_version => bool_decide (semantic_version < 806)
      | None => false
      end
  | Returns None => false
  | Raises _ => false
  end.

(* ===================================================================== *)
(** ** A concrete installation *)
(* ===================================================================== *)

(** A small installation to run the commands in: the network model is the
    text of the file it is read from, the renderer writes it to
    [etc/network/interfaces] under the target, the version probe ends as
    [probe] says, and the command environment is [environ]. *)
Definition read_model (path : string) (files : gmap string entry) : completion string :=
  match files !! path with
  | Some (Regular content _) => Returns content
  | _ => Raises (OSError "No such file or directory")
  end.

Definition sample_collaborators (probe : completion (option (gmap string Z)))
    (environ : command_environment) : Collaborators string :=
  {| on_from_state_file := read_model;
     on_parse_net_config := read_model;
     on_render_network_state := fun target ns _ files =>
       (Returns tt,
        <[join sep [target; "etc/network/interfaces"] := Regular ns default_mode]> files);
     on_get_package_version := fun _ _ _ => probe;
     on_value_as_boolean := fun v =>
       negb (bool_decide (v ∈ ["0"; "False"; "false"; "None"; "none"; ""]));
     on_load_command_environment := environ |}.

Definition no_environment : command_environment :=
  {| state_target := None; state_network_state := None; state_network_config := None |}.

(** A world with the given files and nothing logged, written or called. *)
Definition world_of (files : list (string * entry)) : world string :=
  {| fs := list_to_map files; log := []; stderr := ""; calls := [] |}.

Definition eth0_text : string :=
  "auto eth0" +:+ nl +:+ "iface eth0 inet dhcp" +:+ nl.

Definition eth0_static_text : string :=
  "auto eth0" +:+ nl +:+ "iface eth0 inet static" +:+ nl.

Definition ipv6_privacy_text : string :=
  "# IPv6 Privacy Extensions (RFC 4941)" +:+ nl
  +:+ "net.ipv6.conf.all.use_tempaddr = 2" +:+ nl
  +:+ "net.ipv6.conf.default.use_tempaddr = 2" +:+ nl.



(** ifupdown 0.7.47, as in Trusty. *)
Definition trusty_ifupdown : gmap string Z :=
  <["semantic_version" := 747]> (<["major" := 0]> (<["minor" := 7]> (<["micro" := 47]> ∅))).

(* ===================================================================== *)
(** ** Definitions for the further properties of [apply_net.py] *)
(* ===================================================================== *)

(** The filesystem [_patch_ifupdown_ipv6_mtu_hook] leaves: the pre-up hook is
    written first, the post-up hook second. *)
Definition hooks_fs_after (target prehookfn posthookfn : string)
    (files : gmap string entry) : gmap string entry :=
  <[join sep [target; posthookfn] := Regular IFUPDOWN_IPV6_MTU_POST_HOOK 493]>
    (<[join sep [target; prehookfn] := Regular IFUPDOWN_IPV6_MTU_PRE_HOOK 493]> files).

(** The filesystem the last four statements of [apply_net] leave, from the
    one the renderer left. *)
Definition cleanup_fs_after (target : string) (files : gmap string entry)
    : gmap string entry :=
  hooks_fs_after target default_prehookfn default_posthookfn
    (ipv6_fs_after (cfg_of target ipv6_privacy_path)
       (eth0_fs_after (cfg_of target legacy_eth0_path) files)).

Section ApplyNetParts.

Context {NetworkModel : Type}.

(** The last four statements of [apply_net], after the renderer. *)
Definition cleanup (target : string) : Py NetworkModel unit :=
  _maybe_remove_legacy_eth0 target legacy_eth0_path ;;
  LOG_info (VStr "Attempting to remove ipv6 privacy extensions") [] ;;
  _disable_ipv6_privacy_extensions target ipv6_privacy_path ;;
  _patch_ifupdown_ipv6_mtu_hook target default_prehookfn default_posthookfn.

End ApplyNetParts.

Section CollaboratorsContract.

Context {NetworkModel : Type} {collab : Collaborators NetworkModel}.

(** Every exception the collaborators raise derives from [Exception]. *)
Definition raise_only_Exception : Prop :=
  (∀ path files e, on_from_state_file path files = Raises e → is_Exception e = true)
  ∧ (∀ path files e, on_parse_net_config path files = Raises e → is_Exception e = true)
  ∧ (∀ target ns alias files e files',
       on_render_network_state target ns alias files = (Raises e, files') →
       is_Exception e = true)
  ∧ (∀ pkg target files e,
       on_get_package_version pkg target files = Raises e → is_Exception e = true).

End CollaboratorsContract.

(** The semantic version a probe delivered, if it delivered a complete one. *)
Definition probed_semantic (probe : completion (option (gmap string Z))) : option Z :=
  match probe with
  | Returns (Some pkg_ver) => semantic_of pkg_ver
  | _ => None
  end.

(** A text without line break. *)
Fixpoint single_line (s : string) : bool :=
  match s with
  | "" => true
  | String c r => negb (islinebreak c) && single_line r
  end.

(** The record [LOG.exception] leaves when a reconciler cannot read [cfg]. *)
Definition unreadable_record (bmsg cfg : string) (e : exn) : log_record :=
  LogRecord ERROR (VStr (bmsg +:+ " " +:+ cfg +:+ " exists, but could not be read."))
    [] (Some e).

(** The record of the fallback of [detect_postup_alias]. *)
Definition probe_warning : log_record :=
  LogRecord WARNING (VStr "Failed reading ifupdown pkg version (using defaults)")
    [] None.

(** Whether a call is the version probe. *)
Definition is_probe {NetworkModel} (c : call NetworkModel) : bool :=
  match c with
  | get_package_version_call _ _ => true
  | _ => false
  end.

(* ===================================================================== *)
(** ** [curtin/block/lvm.py] *)
(* ===================================================================== *)

(** What makes a helper of [lvm.py] fail: the unpacking of a row into
    [(mf, qf)] raises [ValueError] because the row has [got] fields instead
    of two, or an exception raised underneath ([util.subp], [float]) passes
    through. *)
Inductive lvm_error : Type :=
| Unpack (got : nat)
| Raised (e : exn).

Inductive lvm_result (A : Type) : Type :=
| Done (a : A)
| Failed (err : lvm_error).
Arguments Done {A} a.
Arguments Failed {A} err.

(** The state [lvm_scan] acts on: the commands handed to [util.subp], in
    order, and the records of the logger. *)
Record lvm_world : Type := LvmWorld {
  ran : list (list string);
  lvm_log : list log_record
}.

(** [[qf for (mf, qf) in rows if mf == match_key]]: the rows are unpacked one
    after the other, and the first row that does not have two fields raises. *)
Fixpoint select_rows (match_key : string) (rows : list (list string))
    : lvm_result (list string) :=
  match rows with
  | [] => Done []
  | [mf; qf] :: rows' =>
      match select_rows match_key rows' with
      | Done qfs => Done (if bool_decide (mf = match_key) then qf :: qfs else qfs)
      | Failed err => Failed err
      end
  | row :: _ => Failed (Unpack (length row))
  end.

Section Lvm.

(** [util.subp(cmd, capture=True)]: the pair [(out, err)], or an exception. *)
Variable subp : list string → completion (string * string).

(** [util.lsb_release()] *)
Variable lsb_release : gmap string string.

(** [float(s) >= 14.04]: the conversion raises [ValueError] when [s] is not
    the text of a number; the comparison itself is taken as given. *)
Variable float_ge_14_04 : string → completion bool.

Definition _filter_lvm_info (lvtool match_field query_field match_key : string)
    : lvm_result (list string) :=
  let sep := "=" in
  match subp [lvtool; "-C"; "--separator"; sep; "--noheadings";
              "-o"; join "," [match_field; query_field]] with
  | Raises e => Failed (Raised e)
  | Returns (out, _) =>
      select_rows match_key
        (map (fun l => split "=" (strip l)) (splitlines out))
  end.

Definition get_pvols_in_volgroup (vg_name : string) : lvm_result (list string) :=
  _filter_lvm_info "pvdisplay" "vg_name" "pv_name" vg_name.

Definition get_lvols_in_volgroup (vg_name : string) : lvm_result (list string) :=
  _filter_lvm_info "lvdisplay" "vg_name" "lv_name" vg_name.

Definition split_lvm_name (full : string) : lvm_result (list string) :=
  let sep := "=" in
  match subp ["dmsetup"; "splitname"; full; "-c"; "--noheadings";
              "--separator"; sep; "-o"; "vg_name,lv_name"] with
  | Raises e => Failed (Raised e)
  | Returns (out, _) => Done (split "=" (strip out))
  end.

(** The loop of [lvm_scan] over its three commands. *)
Fixpoint scan_loop (release_code_ge : bool) (cmds : list (list string))
    (w : lvm_world) : lvm_result unit * lvm_world :=
  match cmds with
  | [] => (Done tt, w)
  | cmd :: cmds' =>
      let cmd := if release_code_ge then cmd ++ ["--cache"] else cmd in
      let w' := {| ran := ran w ++ [cmd]; lvm_log := lvm_log w |} in
      match subp cmd with
      | Raises e => (Failed (Raised e), w')
      | Returns _ => scan_loop release_code_ge cmds' w'
      end
  end.

Definition lvm_scan (w : lvm_world) : lvm_result unit * lvm_world :=
  let release_code_str := lsb_release !! "release" in
  let '(release_code_str, w) :=
    match release_code_str with
    | Some r =>
        if bool_decide (r = "UNAVAILABLE") then
          ("14.04",
           {| ran := ran w;
              lvm_log := lvm_log w ++
                [LogRecord WARNING
                   (VStr "unable to find release number, assuming trusty or later")
                   [] None] |})
        else (r, w)
    | None =>
        ("14.04",
         {| ran := ran w;
            lvm_log := lvm_log w ++
              [LogRecord WARNING
                 (VStr "unable to find release number, assuming trusty or later")
                 [] None] |})
    end in
  match float_ge_14_04 release_code_str with
  | Raises e => (Failed (Raised e), w)
  | Returns release_code_ge =>
      scan_loop release_code_ge
        [["pvscan"]; ["vgscan"; "--mknodes"]; ["lvscan"; "--all"]] w
  end.

End Lvm.

(** The report an LVM display tool prints with [-C --noheadings
    --separator =]: one indented row [mf=qf] per line. *)
Fixpoint lvm_report (indent : string) (rows : list (string * string)) : string :=
  match rows with
  | [] => ""
  | (mf, qf) :: rows' =>
      (indent +:+ mf +:+ "=" +:+ qf) +:+ nl +:+ lvm_report indent rows'
  end.

(** A text without whitespace and without the separator. *)
Fixpoint lvm_field (s : string) : bool :=
  match s with
  | "" => true
  | String c r => negb (isspace c) && negb (Ascii.eqb c "=") && lvm_field r
  end.

(** A text without whitespace. *)
Fixpoint no_space (s : string) : bool :=
  match s with
  | "" => true
  | String c r => negb (isspace c) && no_space r
  end.

(** A text without the separator. *)
Fixpoint no_separator (s : string) : bool :=
  match s with
  | "" => true
  | String c r => negb (Ascii.eqb c "=") && no_separator r
  end.

(** Blanks and tabs only. *)
Fixpoint lvm_indent (s : string) : bool :=
  match s with
  | "" => true
  | String c r => (Ascii.eqb c " " || Ascii.eqb c "009") && lvm_indent r
  end.

(** The text of a row of a report. *)
Definition row_text (indent : string) (row : string * string) : string :=
  indent +:+ row.1 +:+ "=" +:+ row.2.

(** The three commands of [lvm_scan], as handed to [util.subp]. *)
Definition scan_commands (cache : bool) : list (list string) :=
  map (fun cmd => if cache then cmd ++ ["--cache"] else cmd)
    [["pvscan"]; ["vgscan"; "--mknodes"]; ["lvscan"; "--all"]].

(** The command line [_filter_lvm_info] builds. *)
Definition display_command (lvtool match_field query_field : string) : list string :=
  [lvtool; "-C"; "--separator"; "="; "--noheadings";
   "-o"; join "," [match_field; query_field]].

(** The command line [split_lvm_name] builds. *)
Definition splitname_command (full : string) : list string :=
  ["dmsetup"; "splitname"; full; "-c"; "--noheadings";
   "--separator"; "="; "-o"; "vg_name,lv_name"].

(** The warning of [lvm_scan]. *)
Definition release_warning : log_record :=
  LogRecord WARNING
    (VStr "unable to find release number, assuming trusty or later") [] None.

(* ===================================================================== *)
(** ** [curtin/version.py] *)
(* ===================================================================== *)

(** [s.endswith("/")] *)
Fixpoint ends_with_sep (s : string) : bool :=
  match s with
  | "" => false
  | String c "" => Ascii.eqb c "/"
  | String _ r => ends_with_sep r
  end.

(** [posixpath.join(a, b)] *)
Definition os_path_join (a b : string) : string :=
  if startswith b "/" then b
  else if bool_decide (a = "") || ends_with_sep a then a +:+ b
  else a +:+ "/" +:+ b.

(** [p[:p.rfind("/") + 1]]: the text up to and including the last
    separator. *)
Fixpoint up_to_last_sep (p : string) : string :=
  match p with
  | "" => ""
  | String c r =>
      match up_to_last_sep r with
      | "" => if Ascii.eqb c "/" then "/" else ""
      | h => String c h
      end
  end.

(** [head == "/" * len(head)] *)
Fixpoint all_sep (s : string) : bool :=
  match s with
  | "" => true
  | String c r => Ascii.eqb c "/" && all_sep r
  end.

(** [head.rstrip("/")] *)
Fixpoint rstrip_sep (s : string) : string :=
  match s with
  | "" => ""
  | String c r =>
      match rstrip_sep r with
      | "" => if Ascii.eqb c "/" then "" else String c ""
      | r' => String c r'
      end
  end.

(** [posixpath.dirname(p)] *)
Definition os_path_dirname (p : string) : string :=
  let head := up_to_last_sep p in
  if negb (bool_decide (head = "")) && negb (all_sep head) then rstrip_sep head
  else head.

(** A file name without path separator. *)
Fixpoint no_sep (s : string) : bool :=
  match s with
  | "" => true
  | String c r => negb (Ascii.eqb c "/") && no_sep r
  end.

(** [out.decode('ascii')]: the text itself when every byte is below 128. *)
Fixpoint is_ascii (s : string) : bool :=
  match s with
  | "" => true
  | String c r => (nat_of_ascii c <? 128)%nat && is_ascii r
  end.

(** What makes [version_string] fail: [UnicodeDecodeError] from the
    decoding of the output of [bzr], or an exception raised underneath. *)
Inductive version_error : Type :=
| DecodeError
| RaisedBy (e : exn).

Inductive version_result : Type :=
| Version (v : string)
| NoVersion (err : version_error).

(** What [version_string] does to the process besides reading. *)
Inductive os_action : Type :=
| Chdir (d : string)
| BzrRevno.

Section Version.

(** [os.path.exists], for the working directory at the entry of the call. *)
Variable path_exists : string → bool.
(** [os.getcwd()] at the entry of the call. *)
Variable getcwd : string.
(** [os.environ] *)
Variable environ : gmap string string.
(** [open(path, 'r').read()] *)
Variable read_text : string → completion string.
(** [os.chdir(d)] *)
Variable chdir : string → completion unit.
(** [subprocess.check_output(['bzr', 'revno'])] run in directory [d]. *)
Variable bzr_revno : string → completion string.
(** [curtin.__version__] *)
Variable old_version : string.

(** The loop of [_find_path] over the entries of [PYTHONPATH]. *)
Fixpoint search_pythonpath (paths : list string) (pathfile : string)
    : option string :=
  match paths with
  | [] => None
  | path :: paths' =>
      let curpath := os_path_join path pathfile in
      if path_exists curpath then Some (os_path_dirname curpath)
      else search_pythonpath paths' pathfile
  end.

Definition _find_path (pathfile : string) : option string :=
  if path_exists pathfile then Some getcwd
  else
    match environ !! "PYTHONPATH" with
    | Some pythonpath => search_pythonpath (split ":" pythonpath) pathfile
    | None => None
    end.

Definition version_string : version_result * list os_action :=
  let dotversion := ".version" in
  let dotpath := _find_path dotversion in
  match if_truthy dotpath with
  | Some dotpath =>
      match read_text (os_path_join dotpath dotversion) with
      | Returns contents => (Version (strip contents), [])
      | Raises e => (NoVersion (RaisedBy e), [])
      end
  | None =>
      let bzrdir := _find_path ".bzr" in
      match if_truthy bzrdir with
      | Some bzrdir =>
          match chdir bzrdir with
          | Raises e => (NoVersion (RaisedBy e), [Chdir bzrdir])
          | Returns _ =>
              match bzr_revno bzrdir with
              | Raises e => (NoVersion (RaisedBy e), [Chdir bzrdir; BzrRevno])
              | Returns out =>
                  if is_ascii out then
                    let revno := Some ("bzr" +:+ strip out) in
                    let version := old_version in
                    let version :=
                      match if_truthy revno with
                      | Some revno => version +:+ "~" +:+ revno
                      | None => version
                      end in
                    (Version version, [Chdir bzrdir; BzrRevno])
                  else (NoVersion DecodeError, [Chdir bzrdir; BzrRevno])
              end
          end
      | None => (Version old_version, [])
      end
  end.

End Version.

(* ===================================================================== *)
(** ** Concrete collaborators for the further properties *)
(* ===================================================================== *)

(** An installation whose renderer fails after writing a partial file. *)
Definition broken_renderer : Collaborators string :=
  {| on_from_state_file := read_model;
     on_parse_net_config := read_model;
     on_render_network_state := fun target _ _ files =>
       (Raises (OSError "No space left on device"),
        <[join sep [target; "etc/network/interfaces"] := Regular "" default_mode]> files);
     on_get_package_version := fun _ _ _ => Returns None;
     on_value_as_boolean := fun v =>
       negb (bool_decide (v ∈ ["0"; "False"; "false"; "None"; "none"; ""]));
     on_load_command_environment := no_environment |}.

(** ifupdown 0.8.6. *)
Definition recent_ifupdown : gmap string Z :=
  <["semantic_version" := 806]> (<["major" := 0]> (<["minor" := 8]> (<["micro" := 6]> ∅))).

(** A machine with two volume groups. *)
Definition sample_rows : list (string * string) :=
  [("vg0", "/dev/sda1"); ("vg1", "/dev/sdb1"); ("vg0", "/dev/sdc1")].

Definition sample_subp (cmd : list string) : completion (string * string) :=
  if bool_decide (cmd = display_command "pvdisplay" "vg_name" "pv_name") then
    Returns (lvm_report "  " sample_rows, "")
  else if bool_decide (cmd = display_command "lvdisplay" "vg_name" "lv_name") then
    Returns ("  vg0=root" +:+ nl +:+ nl +:+ "  vg0=swap" +:+ nl, "")
  else if bool_decide (cmd = splitname_command "vg0-root") then
    Returns ("  " +:+ ("vg0" +:+ "=" +:+ "root") +:+ nl, "")
  else if bool_decide (cmd = ["vgscan"; "--mknodes"; "--cache"]) then
    Raises (OSError "vgscan failed")
  else Returns ("", "").

(** [util.subp] raised [e] on command [c]. *)
Definition subp_failed (subp : list string → completion (string * string))
    (c : list string) (e : exn) : Prop :=
  subp c = Raises e.

(** [float(s) >= 14.04] on the releases used below. *)
Definition sample_float_ge (s : string) : completion bool :=
  if bool_decide (s = "16.04") || bool_decide (s = "14.04") then Returns true
  else if bool_decide (s = "12.04") then Returns false
  else Raises (ValueError "could not convert string to float" s).

(** A source tree with a [.bzr] directory, found through [PYTHONPATH]. *)
Definition sample_exists (path : string) : bool :=
  bool_decide (path = "/src/curtin/.bzr").

Definition sample_environ : gmap string string :=
  <["PYTHONPATH" := ":/opt/lib:/src/curtin"]> ∅.

(** An installed tree with a [.version] file in the working directory. *)
Definition installed_exists (path : string) : bool :=
  bool_decide (path = ".version") || bool_decide (path = "/src/curtin/.bzr").

Definition installed_read (path : string) : completion string :=
  if bool_decide (path = "/usr/share/curtin/.version") then
    Returns ("0.1.0~bzr470" +:+ nl)
  else Raises (OSError "No such file or directory").

(* ===================================================================== *)
(** ** Properties *)
(* ===================================================================== *)

(** *** The primitives and the scenarios of the specification, by evaluation *)

Example splitlines_blank_line :
  splitlines ("a" +:+ nl +:+ nl +:+ "b" +:+ nl) = ["a"; ""; "b"].
Proof. reflexivity. Qed.

Example splitlines_crlf :
  splitlines (String "013" (String "010" "x")) = [""; "x"].
Proof. reflexivity. Qed.

Example strip_both_ends : strip "  a b  " = "a b".
Proof. reflexivity. Qed.

Example normpath_collapses :
  normpath "/t//etc/network/../x/./y/" = "/t/etc/x/y"
  ∧ normpath "//t/a" = "//t/a"
  ∧ normpath "///t/a" = "/t/a"
  ∧ normpath "../a/../../b" = "../../b"
  ∧ normpath "a/.." = ".".
Proof. by split_and!. Qed.

Example scenario_eth0_dhcp :
  let cfg := "/target/etc/network/interfaces.d/eth0.cfg" in
  let w := world_of [(cfg, Regular eth0_text 420)] in
  let w' := (_maybe_remove_legacy_eth0 "/target" legacy_eth0_path w).2 in
  fs w' !! cfg = None ∧ eth0_outcome cfg (emitted w w') = Some Removed.
Proof. by split. Qed.

Example scenario_eth0_static :
  let cfg := "/target/etc/network/interfaces.d/eth0.cfg" in
  let w := world_of [(cfg, Regular eth0_static_text 420)] in
  let w' := (_maybe_remove_legacy_eth0 "/target" legacy_eth0_path w).2 in
  fs w' = fs w ∧ eth0_outcome cfg (emitted w w') = Some Preserved.
Proof. by split. Qed.

Example scenario_ipv6_privacy :
  let cfg := "/target/etc/sysctl.d/10-ipv6-privacy.conf" in
  let w := world_of [(cfg, Regular ipv6_privacy_text 420)] in
  let w' := (_disable_ipv6_privacy_extensions "/target" ipv6_privacy_path w).2 in
  fs w' !! cfg = Some (Regular curtin_contents default_mode)
  ∧ content_lines curtin_contents = []
  ∧ ipv6_outcome cfg (emitted w w') = Some RemovedAndAnnotated.
Proof. by split_and!. Qed.

Example scenario_absent :
  let w := world_of [] in
  let w' := (_maybe_remove_legacy_eth0 "/target" legacy_eth0_path w).2 in
  fs w' = fs w
  ∧ eth0_outcome "/target/etc/network/interfaces.d/eth0.cfg" (emitted w w')
    = Some Absent.
Proof. by split. Qed.

(** *** The monad *)

Lemma bind_ret {NetworkModel A B} (a : A) (k : A → Py NetworkModel B) w :
  bind (ret a) k w = k a w.
Proof. done. Qed.

Lemma bind_raise {NetworkModel A B} (e : exn) (k : A → Py NetworkModel B) w :
  bind (raise e) k w = (Raises e, w).
Proof. done. Qed.

Lemma try_except_raise {NetworkModel A} (e : exn) (catches : exn → bool)
    (handler : exn → Py NetworkModel A) w :
  try_except (raise e) catches handler w
  = if catches e then handler e w else (Raises e, w).
Proof. done. Qed.

(* ===================================================================== *)
(** ** What one run of a reconciler does *)
(* ===================================================================== *)

Global Arguments normpath : simpl never.
Global Arguments content_lines : simpl never.
Global Arguments _maybe_remove_legacy_eth0 : simpl never.
Global Arguments _disable_ipv6_privacy_extensions : simpl never.
Global Arguments _patch_ifupdown_ipv6_mtu_hook : simpl never.
Global Arguments detect_postup_alias : simpl never.
Global Arguments effective_postup_alias : simpl never.
Global Arguments apply_net : simpl never.

Section Reconcilers.

Context {NetworkModel : Type} {collab : Collaborators NetworkModel}.

Implicit Types w : world NetworkModel.

Lemma emitted_app w w' (rs : list log_record) :
  log w' = log w ++ rs → emitted w w' = rs.
Proof. unfold emitted. intros ->. by rewrite drop_app_length. Qed.

Lemma emitted_same w w' : log w' = log w → emitted w w' = [].
Proof. unfold emitted. intros ->. by rewrite drop_all. Qed.

Lemma eth0_run target path w :
  let cfg := cfg_of target path in
  let r := _maybe_remove_legacy_eth0 target path w in
  r.1 = Returns tt ∧ fs r.2 = eth0_fs_after cfg (fs w)
  ∧ calls r.2 = calls w ∧ stderr r.2 = stderr w.
Proof.
  unfold cfg_of, _maybe_remove_legacy_eth0, eth0_fs_after.
  set (cfg := normpath _).
  unfold bind, os_path_exists, try_except, util_load_file. simpl.
  destruct (fs w !! cfg) as [[content mode|]|] eqn:Hcfg; simpl;
    rewrite ?Hcfg; simpl; auto.
  case_bool_decide; simpl; auto.
Qed.

Lemma ipv6_run target path w :
  startswith path "/" = false →
  let cfg := cfg_of target path in
  let r := _disable_ipv6_privacy_extensions target path w in
  r.1 = Returns tt ∧ fs r.2 = ipv6_fs_after cfg (fs w)
  ∧ calls r.2 = calls w ∧ stderr r.2 = stderr w.
Proof.
  intros Hrel.
  unfold cfg_of, _disable_ipv6_privacy_extensions, ipv6_fs_after. rewrite Hrel.
  set (cfg := normpath _).
  unfold bind, os_path_exists, try_except, util_load_file. simpl.
  destruct (fs w !! cfg) as [[content mode|]|] eqn:Hcfg; simpl;
    rewrite ?Hcfg; simpl; auto.
  case_bool_decide; simpl; auto.
  by rewrite insert_delete_eq.
Qed.

Lemma ipv6_run_rejected target path w :
  startswith path "/" = true →
  _disable_ipv6_privacy_extensions target path w
  = (Raises (ValueError "path parameter must not start with '/': %s" path), w).
Proof. intros Habs. unfold _disable_ipv6_privacy_extensions. by rewrite Habs. Qed.


Lemma eth0_outcome_preserved cfg :
  eth0_outcome cfg
    [LogRecord WARNING
       (VStr ("Dynamic networking config may not apply." +:+ " '" +:+ cfg
              +:+ "' exists with user configured content.")) [] None]
  = Some Preserved.
Proof.
  unfold eth0_outcome, absent_record.
  rewrite bool_decide_false by discriminate.
  rewrite bool_decide_false by (cbv [String.append]; discriminate).
  by rewrite bool_decide_true.
Qed.

Ltac run_reconciler Hcfg :=
  unfold cfg_of in *;
  unfold _maybe_remove_legacy_eth0, _disable_ipv6_privacy_extensions;
  set (cfg := normpath _) in *;
  unfold bind, os_path_exists, try_except, util_load_file; simpl;
  repeat (rewrite Hcfg; simpl).


(** C4. A readable file whose content lines differ from the known ones is
    left as it is by both reconcilers: no deletion, no write, outcome
    [Preserved]. *)
Theorem reconcile_other_content target path content mode w :
  let cfg := cfg_of target path in
  fs w !! cfg = Some (Regular content mode) →
  (content_lines content ≠ eth0_known_contents →
   let r := _maybe_remove_legacy_eth0 target path w in
   r.1 = Returns tt
   ∧ fs r.2 = fs w
   ∧ eth0_outcome cfg (emitted w r.2) = Some Preserved)
  ∧ (startswith path "/" = false →
     content_lines content ≠ ipv6_known_contents →
     let r := _disable_ipv6_privacy_extensions target path w in
     r.1 = Returns tt
     ∧ fs r.2 = fs w
     ∧ ipv6_outcome cfg (emitted w r.2) = Some Preserved).
Proof.
  intros cfg Hcfg. split.
  - intros Hother. subst cfg. run_reconciler Hcfg.
    rewrite bool_decide_false by done. simpl.
    split_and!; [done..|].
    erewrite emitted_app; [apply eth0_outcome_preserved|done].
  - intros Hrel Hother. subst cfg.
    unfold _disable_ipv6_privacy_extensions. rewrite Hrel.
    run_reconciler Hcfg.
    rewrite bool_decide_false by done. simpl.
    split_and!; [done..|].
    erewrite emitted_app; [|simpl; by rewrite <- !app_assoc].
    unfold ipv6_outcome, absent_record. simpl app. cbv beta iota.
    rewrite bool_decide_false by discriminate.
    rewrite bool_decide_false by discriminate.
    by rewrite bool_decide_true.
Qed.

Lemma curtin_contents_lines : content_lines curtin_contents = [].
Proof. reflexivity. Qed.

Lemma eth0_fs_after_idem cfg (m : gmap string entry) :
  eth0_fs_after cfg (eth0_fs_after cfg m) = eth0_fs_after cfg m.
Proof.
  unfold eth0_fs_after.
  destruct (m !! cfg) as [[content mode|]|] eqn:Hcfg; rewrite ?Hcfg; [|done..].
  case_bool_decide as Hk.
  - by rewrite lookup_delete_eq.
  - rewrite Hcfg. by rewrite bool_decide_false.
Qed.

Lemma ipv6_fs_after_idem cfg (m : gmap string entry) :
  ipv6_fs_after cfg (ipv6_fs_after cfg m) = ipv6_fs_after cfg m.
Proof.
  unfold ipv6_fs_after.
  destruct (m !! cfg) as [[content mode|]|] eqn:Hcfg; rewrite ?Hcfg; [|done..].
  case_bool_decide as Hk.
  - rewrite lookup_insert_eq, curtin_contents_lines.
    by rewrite bool_decide_false.
  - rewrite Hcfg. by rewrite bool_decide_false.
Qed.

(** C6. Running a reconciler a second time, in the world the first run left,
    changes nothing more: the filesystem after two runs is the filesystem
    after one.  This holds for every target, path and initial world, and for
    both reconcilers (the text [curtin_contents] has no content line, so the
    second run of the IPv6 reconciler finds a mismatch and keeps it). *)
Theorem reconcile_idempotent target path w :
  (let w1 := (_maybe_remove_legacy_eth0 target path w).2 in
   let w2 := (_maybe_remove_legacy_eth0 target path w1).2 in
   fs w2 = fs w1)
  ∧ (let w1 := (_disable_ipv6_privacy_extensions target path w).2 in
     let w2 := (_disable_ipv6_privacy_extensions target path w1).2 in
     fs w2 = fs w1).
Proof.
  split; intros w1 w2; subst w2 w1.
  - destruct (eth0_run target path w) as (_ & -> & _).
    set (w1 := (_maybe_remove_legacy_eth0 target path w).2).
    destruct (eth0_run target path w1) as (_ & -> & _). subst w1.
    destruct (eth0_run target path w) as (_ & -> & _).
    apply eth0_fs_after_idem.
  - destruct (startswith path "/") eqn:Hrel.
    + by rewrite !ipv6_run_rejected.
    + destruct (ipv6_run target path w Hrel) as (_ & -> & _).
      set (w1 := (_disable_ipv6_privacy_extensions target path w).2).
      destruct (ipv6_run target path w1 Hrel) as (_ & -> & _). subst w1.
      destruct (ipv6_run target path w Hrel) as (_ & -> & _).
      apply ipv6_fs_after_idem.
Qed.

End Reconcilers.

(* ===================================================================== *)
(** ** Content lines *)
(* ===================================================================== *)

Lemma list_comprehension_map_filter {A B} (out : A → B) (cond : A → bool)
    (xs : list A) :
  list_comprehension out cond xs = map out (List.filter cond xs).
Proof.
  induction xs as [|x xs IH]; simpl; [done|].
  destruct (cond x); simpl; by rewrite IH.
Qed.

Lemma startswith_hash_strip (l : string) :
  startswith l "#" = true → startswith (strip l) "#" = true.
Proof.
  destruct l as [|c r]; [done|].
  unfold startswith. cbn [String.prefix].
  destruct (ascii_dec "#" c) as [<-|]; [|done]. intros _.
  unfold strip. cbn [lstrip isspace rstrip].
  destruct (rstrip r); cbn [String.prefix];
    by destruct (ascii_dec "#" "#").
Qed.

Lemma spec_lines_shorter (ls : list string) :
  (length (spec_lines ls) ≤ length (code_lines ls))%nat.
Proof.
  induction ls as [|l ls IH]; [done|].
  unfold spec_lines, code_lines in *. simpl. rewrite filter_cons.
  destruct (startswith l "#") eqn:Hl; simpl.
  - rewrite (startswith_hash_strip l Hl). by rewrite decide_False.
  - case_decide; simpl; lia.
Qed.

Lemma code_lines_spec_lines (ls : list string) :
  code_lines ls = spec_lines ls
  ↔ Forall (fun l => startswith (strip l) "#" = true → startswith l "#" = true) ls.
Proof.
  induction ls as [|l ls IH]; [by split|].
  rewrite Forall_cons, <- IH.
  pose proof (spec_lines_shorter ls) as Hlen.
  unfold spec_lines, code_lines in *. simpl. rewrite filter_cons.
  destruct (startswith l "#") eqn:Hl; simpl.
  - rewrite (startswith_hash_strip l Hl). rewrite decide_False by done.
    split; [by split|by intros [_ ?]].
  - destruct (startswith (strip l) "#") eqn:Hs.
    + rewrite decide_False by done. split.
      * intros Heq. rewrite <- Heq in Hlen. simpl in Hlen. lia.
      * intros [Habs _]. by specialize (Habs eq_refl).
    + rewrite decide_True by done. split.
      * intros [= Heq]. by split.
      * intros [_ Heq]. by f_equal.
Qed.

(** The claim C5 as worded fails: an indented comment line is kept, because
    the code tests for the comment marker before it strips the line. *)
Lemma content_lines_keeps_indented_comment :
  content_lines " #x" = ["#x"] ∧ spec_content_lines " #x" = []
  ∧ content_lines " #x" ≠ spec_content_lines " #x".
Proof. split_and!; [reflexivity|reflexivity|discriminate]. Qed.

(** C5, amended.  The content lines are the lines of the text that do not
    begin with the comment marker before any stripping, each then stripped of
    leading and trailing whitespace, in their order.  They are the lines of
    the specification's wording exactly when no line has whitespace before a
    leading comment marker. *)
Theorem content_lines_extraction (contents : string) :
  content_lines contents
  = map strip (List.filter (fun l => negb (startswith l "#")) (splitlines contents))
  ∧ (content_lines contents = spec_content_lines contents
     ↔ Forall (fun l => startswith (strip l) "#" = true → startswith l "#" = true)
         (splitlines contents)).
Proof.
  split.
  - apply list_comprehension_map_filter.
  - apply code_lines_spec_lines.
Qed.

Section Orchestration.

Context {NetworkModel : Type} {collab : Collaborators NetworkModel}.

Implicit Types w : world NetworkModel.

Lemma detect_postup_alias_run target w :
  (∀ e, on_get_package_version "ifupdown" target (fs w) = Raises e →
        is_Exception e = true) →
  let r := detect_postup_alias target w in
  r.1 = Returns (decision (on_get_package_version "ifupdown" target (fs w)))
  ∧ fs r.2 = fs w.
Proof.
  intros Hexc.
  unfold detect_postup_alias, bind, try_except, LOG_info, LOG_debug, LOG_warn,
    emit, util_get_package_version. simpl.
  destruct (on_get_package_version "ifupdown" target (fs w))
    as [[pkg_ver|]|e] eqn:Hprobe; simpl.
  - unfold semantic_of, getitem, bind.
    destruct (pkg_ver !! "semantic_version") as [sv|]; simpl; [|done].
    destruct (pkg_ver !! "major") as [major|]; simpl; [|done].
    destruct (pkg_ver !! "minor") as [minor|]; simpl; [|done].
    destruct (pkg_ver !! "micro") as [micro|]; simpl; [|done].
    destruct (Z.ltb_spec sv 806).
    + by rewrite bool_decide_true.
    + by rewrite bool_decide_false by lia.
  - done.
  - by rewrite (Hexc e eq_refl).
Qed.

(** C7. [detect_postup_alias] never raises when the probe fails with an
    exception (anything derived from [Exception]).  It returns [True] exactly
    when the probe returned a version whose semantic number is below 806, and
    [False] when the probe raised, returned [None] or returned a dictionary
    without the version fields.  The target filesystem is left as it was. *)
Theorem detect_postup_alias_decides target w :
  (∀ e, on_get_package_version "ifupdown" target (fs w) = Raises e →
        is_Exception e = true) →
  let probe := on_get_package_version "ifupdown" target (fs w) in
  let r := detect_postup_alias target w in
  ∃ b : bool,
    r.1 = Returns b
    ∧ fs r.2 = fs w
    ∧ (∀ pkg_ver semantic_version,
         probe = Returns (Some pkg_ver) →
         semantic_of pkg_ver = Some semantic_version →
         (b = true ↔ semantic_version < 806))
    ∧ (∀ pkg_ver,
         probe = Returns (Some pkg_ver) → semantic_of pkg_ver = None → b = false)
    ∧ (probe = Returns None → b = false)
    ∧ (∀ e, probe = Raises e → b = false).
Proof.
  intros Hexc probe r.
  destruct (detect_postup_alias_run target w Hexc) as [Hret Hfs].
  exists (decision probe). subst probe r. split_and!; try done.
  - intros pkg_ver sv -> Hsv. simpl. rewrite Hsv.
    by rewrite bool_decide_eq_true.
  - intros pkg_ver -> Hsv. simpl. by rewrite Hsv.
  - by intros ->.
  - by intros e ->.
Qed.

(** The hooks are written without touching the log of calls or standard
    error, and the writing does not fail. *)
Lemma patch_hook_run target prehookfn posthookfn w :
  let r := _patch_ifupdown_ipv6_mtu_hook target prehookfn posthookfn w in
  r.1 = Returns tt ∧ calls r.2 = calls w ∧ stderr r.2 = stderr w
  ∧ fs r.2
    = <[join sep [target; posthookfn] := Regular IFUPDOWN_IPV6_MTU_POST_HOOK 493]>
        (<[join sep [target; prehookfn] := Regular IFUPDOWN_IPV6_MTU_PRE_HOOK 493]>
           (fs w)).
Proof.
  unfold _patch_ifupdown_ipv6_mtu_hook, for_each, bind, getitem.
  rewrite !lookup_insert_eq.
  rewrite !lookup_insert_ne by done. rewrite !lookup_insert_eq.
  done.
Qed.

(** C8. With neither a state file nor a declarative configuration,
    [apply_net] raises at its first statement: it writes the message to
    standard error and raises, before any collaborator is called, so no
    network model is produced and nothing is rendered; the target filesystem
    and the log are untouched. *)
Theorem apply_net_missing_input target postup_alias w :
  apply_net target None None postup_alias w
  = (Raises (Exception "Must provide at least config or state"),
     with_stderr ("Must provide at least config or state" +:+ nl) w)
  ∧ calls (apply_net target None None postup_alias w).2 = calls w
  ∧ fs (apply_net target None None postup_alias w).2 = fs w.
Proof. done. Qed.

(** C9. A state argument that is not [None] but false (the empty string),
    with no configuration, passes the missing-input check; neither resolution
    branch runs, and the call ends in [UnboundLocalError] for [ns] where the
    model is handed to the renderer.  Nothing has been called or written by
    then, and the exception is not the one of the missing-input check. *)
Theorem apply_net_falsy_state_unbound target network_state postup_alias w :
  network_state ≠ None →
  truthy network_state = false →
  apply_net (Some target) network_state None postup_alias w
  = (Raises (UnboundLocalError "ns"), w)
  ∧ UnboundLocalError "ns" ≠ Exception "Must provide at least config or state".
Proof.
  intros Hnn Hfalse. split; [|done].
  destruct network_state as [f|]; [|done].
  destruct (decide (f = "")) as [->|Hf]; [done|].
  unfold truthy, if_truthy in Hfalse.
  rewrite (bool_decide_false (f = "")) in Hfalse by done.
  by rewrite bool_decide_true in Hfalse.
Qed.

(** What [apply_net] does once the state file is chosen. *)
Lemma apply_net_from_state_file target f network_config postup_alias w :
  f ≠ "" →
  let r := apply_net (Some target) (Some f) network_config postup_alias w in
  match on_from_state_file f (fs w) with
  | Returns ns =>
      calls r.2
      = calls w ++ [from_state_file_call f;
                    render_network_state_call target ns postup_alias]
  | Raises e =>
      r.1 = Raises e ∧ calls r.2 = calls w ++ [from_state_file_call f]
      ∧ fs r.2 = fs w
  end.
Proof.
  intros Hf. unfold apply_net, bind, if_truthy. simpl.
  rewrite bool_decide_false by done.
  destruct (on_from_state_file f (fs w)) as [ns|e]; [|done].
  unfold net_render_network_state. simpl.
  destruct (on_render_network_state _ _ _ _) as [[[]|e] fs1]; simpl;
    [|by rewrite <- app_assoc].
  match goal with
  | |- context [_maybe_remove_legacy_eth0 ?t ?p ?w1] =>
      destruct (eth0_run t p w1) as (Hr & _ & Hc & _);
      destruct (_maybe_remove_legacy_eth0 t p w1) as [r1 w2]
  end.
  simpl in Hr, Hc. subst r1. unfold LOG_info, emit.
  match goal with
  | |- context [_disable_ipv6_privacy_extensions ?t ?p ?w3] =>
      destruct (ipv6_run t p w3 eq_refl) as (Hr & _ & Hc' & _);
      destruct (_disable_ipv6_privacy_extensions t p w3) as [r2 w4]
  end.
  simpl in Hr, Hc'. subst r2.
  match goal with
  | |- context [_patch_ifupdown_ipv6_mtu_hook ?t ?a ?b ?w5] =>
      destruct (patch_hook_run t a b w5) as (Hr & Hc'' & _);
      destruct (_patch_ifupdown_ipv6_mtu_hook t a b w5) as [r3 w6]
  end.
  simpl in Hr, Hc'' |- *. rewrite Hc'', Hc', Hc. simpl.
  by rewrite <- app_assoc.
Qed.

(** C10. When the state file is given (and true), [apply_net] takes the
    network model from it whatever the configuration argument is: the run is
    the same as the run without a configuration, [parse_net_config] is not
    called, and the model handed to the renderer is the one
    [from_state_file] returned. *)
Theorem apply_net_state_file_precedence target f c postup_alias w :
  f ≠ "" →
  c ≠ "" →
  let r := apply_net (Some target) (Some f) (Some c) postup_alias w in
  r = apply_net (Some target) (Some f) None postup_alias w
  ∧ (∀ p, parse_net_config_call p ∉ drop (length (calls w)) (calls r.2))
  ∧ match on_from_state_file f (fs w) with
    | Returns ns =>
        calls r.2
        = calls w ++ [from_state_file_call f;
                      render_network_state_call target ns postup_alias]
    | Raises e => r.1 = Raises e ∧ calls r.2 = calls w ++ [from_state_file_call f]
    end.
Proof.
  intros Hf Hc r.
  pose proof (apply_net_from_state_file target f (Some c) postup_alias w Hf) as Hrun.
  fold r in Hrun. simpl in Hrun. split_and!.
  - subst r. unfold apply_net, bind, if_truthy. simpl.
    by rewrite (bool_decide_false (f = "")).
  - intros p.
    destruct (on_from_state_file f (fs w)) as [ns|e].
    + rewrite Hrun, drop_app_length.
      rewrite !not_elem_of_cons. split_and!; [done..|apply not_elem_of_nil].
    + destruct Hrun as (_ & -> & _). rewrite drop_app_length.
      rewrite !not_elem_of_cons. split_and!; [done|apply not_elem_of_nil].
  - destruct (on_from_state_file f (fs w)) as [ns|e]; [done|].
    by destruct Hrun as (? & ? & _).
Qed.

(** C1 fails on the code.  Whenever [apply_net_main] reaches [apply_net] and
    [apply_net] raises an exception (anything derived from [Exception]), the
    handler logs it, the success message is logged after it, and the process
    exits with status 0. *)
Theorem apply_net_main_exit_after_failure args w target b w1 e w2 :
  let state := command_state args in
  state_target state = Some target →
  truthy (state_network_config state) || truthy (state_network_state state) = true →
  effective_postup_alias args target w = (Returns b, w1) →
  apply_net (Some target) (state_network_state state) (state_network_config state)
    (Some b)
    (with_log (LogRecord INFO (VStr "Applying network configuration") [] None) w1)
  = (Raises e, w2) →
  is_Exception e = true →
  (apply_net_main args w).1 = Raises (SystemExit 0)
  ∧ exit_status (apply_net_main args w).1 = 0
  ∧ log (apply_net_main args w).2
    = log w2
      ++ [LogRecord ERROR (VStr "failed to apply network config") [] (Some e);
          LogRecord INFO (VStr "Applied network configuration successfully") [] None].
Proof.
  intros state Htarget Hinput Hpostup Hraise Hexc.
  assert (apply_net_main args w
          = (Raises (SystemExit 0),
             with_log
               (LogRecord INFO (VStr "Applied network configuration successfully")
                  [] None)
               (with_log
                  (LogRecord ERROR (VStr "failed to apply network config") []
                     (Some e)) w2))) as ->.
  { unfold apply_net_main, bind, try_except. fold state. rewrite Htarget.
    apply orb_true_iff in Hinput.
    assert (negb (truthy (state_network_config state))
            && negb (truthy (state_network_state state)) = false) as ->.
    { destruct Hinput as [->| ->]; simpl; [done|]. by rewrite andb_false_r. }
    simpl. rewrite Hpostup. unfold LOG_info, emit.
    by rewrite Hraise, Hexc. }
  simpl. by rewrite <- app_assoc.
Qed.

(** The failures [apply_net_main] detects itself end with status 2. *)
Lemma apply_net_main_missing_target args w :
  state_target (command_state args) = None →
  exit_status (apply_net_main args w).1 = 2.
Proof. intros Htarget. unfold apply_net_main. by rewrite Htarget. Qed.

(** C2 fails on the code for one of its two reconcilers.  A path that starts
    with the root separator is rejected by
    [_disable_ipv6_privacy_extensions] ([ValueError], world untouched), but
    [_maybe_remove_legacy_eth0] has no such check: it returns normally and
    treats the file the path denotes under the target like any other. *)
Theorem absolute_path_rejected_by_ipv6_only target path w :
  startswith path "/" = true →
  _disable_ipv6_privacy_extensions target path w
  = (Raises (ValueError "path parameter must not start with '/': %s" path), w)
  ∧ (_maybe_remove_legacy_eth0 target path w).1 = Returns tt
  ∧ fs (_maybe_remove_legacy_eth0 target path w).2
    = eth0_fs_after (cfg_of target path) (fs w).
Proof.
  intros Habs. split; [by apply ipv6_run_rejected|].
  by destruct (eth0_run target path w) as (? & ? & _).
Qed.

End Orchestration.

(* ===================================================================== *)
(** ** The theorems at concrete inputs *)
(* ===================================================================== *)



Lemma reconcile_other_content_witness :
  let w := world_of [("/target/etc/x.cfg", Regular eth0_static_text 420)] in
  fs w !! cfg_of "/target" "etc/x.cfg" = Some (Regular eth0_static_text 420)
  ∧ content_lines eth0_static_text ≠ eth0_known_contents
  ∧ startswith "etc/x.cfg" "/" = false
  ∧ content_lines eth0_static_text ≠ ipv6_known_contents
  ∧ fs (_maybe_remove_legacy_eth0 "/target" "etc/x.cfg" w).2 = fs w
  ∧ fs (_disable_ipv6_privacy_extensions "/target" "etc/x.cfg" w).2 = fs w.
Proof.
  intros w.
  assert (content_lines eth0_static_text ≠ eth0_known_contents) as He by discriminate.
  assert (content_lines eth0_static_text ≠ ipv6_known_contents) as Hi by discriminate.
  split_and!; [reflexivity|exact He|reflexivity|exact Hi|..].
  - apply (proj1 (reconcile_other_content "/target" "etc/x.cfg" eth0_static_text 420 w
                    eq_refl) He).
  - apply (proj2 (reconcile_other_content "/target" "etc/x.cfg" eth0_static_text 420 w
                    eq_refl) eq_refl Hi).
Defined.

Lemma detect_postup_alias_decides_witness :
  let collab := sample_collaborators (Returns (Some trusty_ifupdown)) no_environment in
  let w := world_of [] in
  (∀ e, on_get_package_version "ifupdown" "/target" (fs w) = Raises e →
        is_Exception e = true)
  ∧ (detect_postup_alias "/target" w).1 = Returns true.
Proof.
  intros collab w.
  assert (∀ e, on_get_package_version "ifupdown" "/target" (fs w) = Raises e →
               is_Exception e = true) as Hexc by discriminate.
  split; [exact Hexc|].
  destruct (detect_postup_alias_decides "/target" w Hexc) as (b & Hret & _ & Hb & _).
  rewrite Hret. f_equal.
  apply (Hb trusty_ifupdown 747 eq_refl eq_refl). reflexivity.
Defined.

Lemma apply_net_falsy_state_unbound_witness :
  let collab := sample_collaborators (Returns None) no_environment in
  let w := world_of [] in
  Some "" ≠ (None : option string)
  ∧ truthy (Some "") = false
  ∧ apply_net (Some "/target") (Some "") None None w
    = (Raises (UnboundLocalError "ns"), w).
Proof.
  intros collab w.
  assert (Some "" ≠ (None : option string)) as Hnn by discriminate.
  split_and!; [exact Hnn|reflexivity|].
  apply (apply_net_falsy_state_unbound "/target" (Some "") None w Hnn eq_refl).
Defined.

Lemma apply_net_state_file_precedence_witness :
  let collab := sample_collaborators (Returns None) no_environment in
  let w := world_of [("/tmp/state", Regular "state" 420);
                     ("/tmp/config", Regular "config" 420)] in
  "/tmp/state" ≠ "" ∧ "/tmp/config" ≠ ""
  ∧ apply_net (Some "/target") (Some "/tmp/state") (Some "/tmp/config") None w
    = apply_net (Some "/target") (Some "/tmp/state") None None w
  ∧ calls (apply_net (Some "/target") (Some "/tmp/state") (Some "/tmp/config") None w).2
    = [from_state_file_call "/tmp/state";
       render_network_state_call "/target" "state" None].
Proof.
  intros collab w.
  assert ("/tmp/state" ≠ "") as Hf by discriminate.
  assert ("/tmp/config" ≠ "") as Hc by discriminate.
  destruct (apply_net_state_file_precedence "/target" "/tmp/state" "/tmp/config"
              None w Hf Hc) as (Hsame & _ & Hcalls).
  split_and!; [exact Hf|exact Hc|exact Hsame|exact Hcalls].
Defined.

Lemma apply_net_main_exit_after_failure_witness :
  let collab := sample_collaborators (Returns None) no_environment in
  let args :=
    {| args_net_state := Some "/tmp/state"; args_target := Some "/target";
       args_postup_alias := Some "false"; args_net_config := None |} in
  let w := world_of [] in
  (apply_net (Some "/target") (Some "/tmp/state") None (Some false)
     (with_log (LogRecord INFO (VStr "Applying network configuration") [] None) w)).1
  = Raises (OSError "No such file or directory")
  ∧ is_Exception (OSError "No such file or directory") = true
  ∧ (apply_net_main args w).1 = Raises (SystemExit 0)
  ∧ exit_status (apply_net_main args w).1 = 0.
Proof.
  intros collab args w.
  pose (w2 := with_call (from_state_file_call "/tmp/state")
                (with_log
                   (LogRecord INFO (VStr "Applying network configuration") [] None) w)).
  assert (state_target (command_state args) = Some "/target") as Htarget
    by reflexivity.
  assert (truthy (state_network_config (command_state args))
          || truthy (state_network_state (command_state args)) = true) as Hinput
    by (vm_compute; reflexivity).
  assert (effective_postup_alias args "/target" w = (Returns false, w)) as Hpostup
    by (vm_compute; reflexivity).
  assert (apply_net (Some "/target") (state_network_state (command_state args))
            (state_network_config (command_state args)) (Some false)
            (with_log
               (LogRecord INFO (VStr "Applying network configuration") [] None) w)
          = (Raises (OSError "No such file or directory"), w2)) as Hraise
    by (vm_compute; reflexivity).
  destruct (apply_net_main_exit_after_failure args w "/target" false w
              (OSError "No such file or directory") w2
              Htarget Hinput Hpostup Hraise eq_refl) as (Hmain & Hexit & _).
  split_and!; [vm_compute; reflexivity|reflexivity|exact Hmain|exact Hexit].
Defined.

Lemma absolute_path_rejected_by_ipv6_only_witness :
  let w := world_of [("/target/etc/network/interfaces.d/eth0.cfg",
                      Regular eth0_text 420)] in
  let path := "/etc/network/interfaces.d/eth0.cfg" in
  startswith path "/" = true
  ∧ (_disable_ipv6_privacy_extensions "/target" path w).1
    = Raises (ValueError "path parameter must not start with '/': %s" path)
  ∧ (_maybe_remove_legacy_eth0 "/target" path w).1 = Returns tt
  ∧ fs (_maybe_remove_legacy_eth0 "/target" path w).2 = ∅.
Proof.
  intros w path.
  destruct (absolute_path_rejected_by_ipv6_only "/target" path w eq_refl)
    as (Hipv6 & Hret & Hfs).
  split_and!; [reflexivity|by rewrite Hipv6|exact Hret|].
  rewrite Hfs. reflexivity.
Defined.

(* ===================================================================== *)
(** ** Further properties of the reconcilers and of the hook installer *)
(* ===================================================================== *)

Section ReconcilersMore.

Context {NetworkModel : Type} {collab : Collaborators NetworkModel}.

Implicit Types w : world NetworkModel.

Ltac run_branch Hcfg :=
  unfold cfg_of in *;
  unfold _maybe_remove_legacy_eth0, _disable_ipv6_privacy_extensions;
  set (cfg := normpath _) in *;
  unfold bind, os_path_exists, try_except, util_load_file; simpl;
  repeat (rewrite Hcfg; simpl).

Lemma eth0_missing_run target path w :
  fs w !! cfg_of target path = None →
  _maybe_remove_legacy_eth0 target path w
  = (Returns tt, with_log (absent_record (cfg_of target path)) w).
Proof. intros Hcfg. by run_branch Hcfg. Qed.

Lemma ipv6_missing_run target path w :
  startswith path "/" = false →
  fs w !! cfg_of target path = None →
  _disable_ipv6_privacy_extensions target path w
  = (Returns tt, with_log (absent_record (cfg_of target path)) w).
Proof.
  intros Hrel Hcfg. unfold _disable_ipv6_privacy_extensions. rewrite Hrel.
  by run_branch Hcfg.
Qed.

Lemma ipv6_other_run target path content mode w :
  startswith path "/" = false →
  fs w !! cfg_of target path = Some (Regular content mode) →
  content_lines content ≠ ipv6_known_contents →
  _disable_ipv6_privacy_extensions target path w
  = (Returns tt,
     with_log (LogRecord INFO (VList ipv6_known_contents) [] None)
       (with_log (LogRecord INFO (VList (content_lines content)) [] None)
          (with_log (LogRecord INFO (VStr "skipping, content didnt match") [] None)
             w))).
Proof.
  intros Hrel Hcfg Hother. unfold _disable_ipv6_privacy_extensions. rewrite Hrel.
  run_branch Hcfg. by rewrite bool_decide_false.
Qed.

Lemma ipv6_outcome_skipping cfg (rs : list log_record) :
  ipv6_outcome cfg
    (LogRecord INFO (VStr "skipping, content didnt match") [] None :: rs)
  = Some Preserved.
Proof.
  unfold ipv6_outcome, absent_record.
  rewrite !(bool_decide_false (_ = LogRecord _ _ [VStr cfg] None)) by discriminate.
  by rewrite bool_decide_true.
Qed.

(** X1. When the file is missing, both reconcilers return normally, log the
    one warning about the missing file and leave the whole world otherwise
    as it was. *)
Theorem reconcile_missing_file target path w :
  let cfg := cfg_of target path in
  fs w !! cfg = None →
  _maybe_remove_legacy_eth0 target path w
  = (Returns tt, with_log (absent_record cfg) w)
  ∧ eth0_outcome cfg [absent_record cfg] = Some Absent
  ∧ (startswith path "/" = false →
     _disable_ipv6_privacy_extensions target path w
     = (Returns tt, with_log (absent_record cfg) w)
     ∧ ipv6_outcome cfg [absent_record cfg] = Some Absent).
Proof.
  intros cfg Hcfg. subst cfg. split_and!.
  - by apply eth0_missing_run.
  - unfold eth0_outcome. by rewrite bool_decide_true.
  - intros Hrel. split.
    + by apply ipv6_missing_run.
    + unfold ipv6_outcome. by rewrite bool_decide_true.
Qed.

(** X2. When the file exists but cannot be read, the bare [except:] of both
    reconcilers swallows the error of the read: they return normally, the
    filesystem is unchanged, and the only record is the one of
    [LOG.exception], carrying the error (outcome [Unreadable]);
    [_maybe_remove_legacy_eth0] does not reach its final warning. *)
Theorem reconcile_unreadable_file target path w :
  let cfg := cfg_of target path in
  fs w !! cfg = Some Irregular →
  _maybe_remove_legacy_eth0 target path w
  = (Returns tt,
     with_log (unreadable_record "Dynamic networking config may not apply." cfg
                 (OSError "cannot read")) w)
  ∧ (startswith path "/" = false →
     _disable_ipv6_privacy_extensions target path w
     = (Returns tt,
        with_log
          (unreadable_record "Disabling IPv6 privacy extensions config may not apply."
             cfg (OSError "cannot read")) w))
  ∧ (∀ bmsg e, eth0_outcome cfg [unreadable_record bmsg cfg e] = Some Unreadable
               ∧ ipv6_outcome cfg [unreadable_record bmsg cfg e] = Some Unreadable).
Proof.
  intros cfg Hcfg. subst cfg. split_and!.
  - by run_branch Hcfg.
  - intros Hrel. unfold _disable_ipv6_privacy_extensions. rewrite Hrel.
    by run_branch Hcfg.
  - intros bmsg e. unfold eth0_outcome, ipv6_outcome, unreadable_record, absent_record.
    rewrite !(bool_decide_false (_ = _)) by discriminate.
    done.
Qed.

(** X3. A reconciler touches one path only: every other entry of the
    filesystem, standard error and the trace of collaborator calls are the
    same after a run as before, whatever the file holds and whether or not
    the path is accepted. *)
Theorem reconcile_frame target path w p :
  p ≠ cfg_of target path →
  let e := (_maybe_remove_legacy_eth0 target path w).2 in
  let i := (_disable_ipv6_privacy_extensions target path w).2 in
  fs e !! p = fs w !! p ∧ calls e = calls w ∧ stderr e = stderr w
  ∧ fs i !! p = fs w !! p ∧ calls i = calls w ∧ stderr i = stderr w.
Proof.
  intros Hp e i. subst e i.
  destruct (eth0_run target path w) as (_ & -> & -> & ->).
  assert (eth0_fs_after (cfg_of target path) (fs w) !! p = fs w !! p) as ->.
  { unfold eth0_fs_after.
    destruct (fs w !! cfg_of target path) as [[content mode|]|]; [|done..].
    case_bool_decide; [|done]. by rewrite lookup_delete_ne. }
  destruct (startswith path "/") eqn:Hrel.
  - by rewrite ipv6_run_rejected.
  - destruct (ipv6_run target path w Hrel) as (_ & -> & -> & ->).
    split_and!; try done.
    unfold ipv6_fs_after.
    destruct (fs w !! cfg_of target path) as [[content mode|]|]; [|done..].
    case_bool_decide; [|done]. by rewrite lookup_insert_ne.
Qed.

(** X4. [_maybe_remove_legacy_eth0] never raises, whatever the world; and
    [_disable_ipv6_privacy_extensions] raises exactly when the path starts
    with the root separator. *)
Theorem reconcile_never_aborts target path w :
  (_maybe_remove_legacy_eth0 target path w).1 = Returns tt
  ∧ ((_disable_ipv6_privacy_extensions target path w).1 = Returns tt
     ↔ startswith path "/" = false).
Proof.
  split.
  - by destruct (eth0_run target path w) as (? & _).
  - destruct (startswith path "/") eqn:Hrel.
    + by rewrite ipv6_run_rejected.
    + by destruct (ipv6_run target path w Hrel) as (-> & _).
Qed.

(** X5. What a second run reports.  After a file with the known contents has
    been removed, a second run of [_maybe_remove_legacy_eth0] finds it
    missing ([Absent]); after it has been replaced by [curtin_contents], a
    second run of [_disable_ipv6_privacy_extensions] treats the replacement
    as content that does not match and keeps it ([Preserved]). *)
Theorem reconcile_second_run target path content mode w :
  let cfg := cfg_of target path in
  fs w !! cfg = Some (Regular content mode) →
  (content_lines content = eth0_known_contents →
   let w1 := (_maybe_remove_legacy_eth0 target path w).2 in
   let w2 := (_maybe_remove_legacy_eth0 target path w1).2 in
   fs w2 = fs w1 ∧ eth0_outcome cfg (emitted w1 w2) = Some Absent)
  ∧ (startswith path "/" = false →
     content_lines content = ipv6_known_contents →
     let w1 := (_disable_ipv6_privacy_extensions target path w).2 in
     let w2 := (_disable_ipv6_privacy_extensions target path w1).2 in
     fs w2 = fs w1 ∧ ipv6_outcome cfg (emitted w1 w2) = Some Preserved).
Proof.
  intros cfg Hcfg. split.
  - intros Hknown w1 w2.
    assert (fs w1 !! cfg = None) as Hgone.
    { subst w1. destruct (eth0_run target path w) as (_ & -> & _).
      unfold eth0_fs_after. fold cfg. rewrite Hcfg, bool_decide_true by done.
      apply lookup_delete_eq. }
    subst w2. rewrite (eth0_missing_run target path w1 Hgone). split; [done|].
    erewrite emitted_app; [|done].
    unfold eth0_outcome. by rewrite bool_decide_true.
  - intros Hrel Hknown w1 w2.
    assert (fs w1 !! cfg = Some (Regular curtin_contents default_mode)) as Hnew.
    { subst w1. destruct (ipv6_run target path w Hrel) as (_ & -> & _).
      unfold ipv6_fs_after. fold cfg. rewrite Hcfg, bool_decide_true by done.
      apply lookup_insert_eq. }
    assert (content_lines curtin_contents ≠ ipv6_known_contents) as Hne
      by (rewrite curtin_contents_lines; discriminate).
    subst w2. rewrite (ipv6_other_run target path _ _ w1 Hrel Hnew Hne).
    split; [done|].
    erewrite emitted_app; [|simpl; by rewrite <- !app_assoc].
    apply ipv6_outcome_skipping.
Qed.

End ReconcilersMore.

Global Arguments cleanup : simpl never.

Section OrchestrationMore.

Context {NetworkModel : Type} {collab : Collaborators NetworkModel}.

Implicit Types w : world NetworkModel.

Lemma hooks_fs_after_idem target prehookfn posthookfn (m : gmap string entry) :
  hooks_fs_after target prehookfn posthookfn
    (hooks_fs_after target prehookfn posthookfn m)
  = hooks_fs_after target prehookfn posthookfn m.
Proof.
  unfold hooks_fs_after. apply map_eq. intros i.
  rewrite !lookup_insert. by repeat case_decide.
Qed.

Lemma patch_hook_result target prehookfn posthookfn w :
  _patch_ifupdown_ipv6_mtu_hook target prehookfn posthookfn w
  = (Returns tt,
     with_fs <[join sep [target; posthookfn] := Regular IFUPDOWN_IPV6_MTU_POST_HOOK 493]>
       (with_log
          (LogRecord INFO (VStr "Injecting fix for ipv6 mtu settings: %s")
             [VStr (join sep [target; posthookfn])] None)
          (with_fs
             <[join sep [target; prehookfn] := Regular IFUPDOWN_IPV6_MTU_PRE_HOOK 493]>
             (with_log
                (LogRecord INFO (VStr "Injecting fix for ipv6 mtu settings: %s")
                   [VStr (join sep [target; prehookfn])] None) w)))).
Proof.
  unfold _patch_ifupdown_ipv6_mtu_hook, for_each, bind, getitem.
  rewrite !lookup_insert_eq.
  rewrite !lookup_insert_ne by done. rewrite !lookup_insert_eq.
  done.
Qed.

Lemma hook_paths_differ (target : string) :
  join sep [target; default_posthookfn] ≠ join sep [target; default_prehookfn].
Proof.
  simpl. intros Heq. apply (inj (String.app target)) in Heq. discriminate.
Qed.

(** X6. What [_patch_ifupdown_ipv6_mtu_hook] leaves when it returns
    normally, that is when both writes went through (nothing around the
    writes catches a failure, so a write that fails ends the function with
    its exception).  The post-up hook, written second, is at
    [target/posthookfn] with mode [0o755], also when both names are the
    same; with the default names, the ones [apply_net] uses, the pre-up hook
    is at its path as well; each write was announced by one record that
    names the path as joined, without normalisation, the pre-up hook first;
    nothing went to standard error and no collaborator was called. *)
Theorem patch_hook_installs target prehookfn posthookfn w :
  let r := _patch_ifupdown_ipv6_mtu_hook target prehookfn posthookfn w in
  let pre := join sep [target; prehookfn] in
  let post := join sep [target; posthookfn] in
  r.1 = Returns tt →
  fs r.2 !! post = Some (Regular IFUPDOWN_IPV6_MTU_POST_HOOK 493)
  ∧ (prehookfn = default_prehookfn → posthookfn = default_posthookfn →
     fs r.2 !! pre = Some (Regular IFUPDOWN_IPV6_MTU_PRE_HOOK 493))
  ∧ emitted w r.2
    = [LogRecord INFO (VStr "Injecting fix for ipv6 mtu settings: %s") [VStr pre] None;
       LogRecord INFO (VStr "Injecting fix for ipv6 mtu settings: %s") [VStr post] None]
  ∧ stderr r.2 = stderr w
  ∧ calls r.2 = calls w.
Proof.
  intros r pre post _. subst r. rewrite patch_hook_result. simpl.
  fold pre post. split_and!.
  - apply lookup_insert_eq.
  - intros Hpre Hpost. rewrite lookup_insert_ne, lookup_insert_eq; [done|].
    subst pre post prehookfn posthookfn. apply hook_paths_differ.
  - apply emitted_app. simpl. by rewrite <- app_assoc.
  - done.
  - done.
Qed.

(** X7. Installing the hooks is idempotent on the filesystem: a second run
    writes the same two files with the same bytes and mode, for every target,
    pair of file names and initial world. *)
Theorem patch_hook_idempotent target prehookfn posthookfn w :
  let w1 := (_patch_ifupdown_ipv6_mtu_hook target prehookfn posthookfn w).2 in
  let w2 := (_patch_ifupdown_ipv6_mtu_hook target prehookfn posthookfn w1).2 in
  fs w2 = fs w1.
Proof.
  intros w1 w2. subst w2 w1. rewrite !patch_hook_result. simpl.
  apply (hooks_fs_after_idem target prehookfn posthookfn (fs w)).
Qed.

Lemma cleanup_run target w :
  ∃ w', cleanup target w = (Returns tt, w')
        ∧ fs w' = cleanup_fs_after target (fs w)
        ∧ calls w' = calls w ∧ stderr w' = stderr w.
Proof.
  unfold cleanup, cleanup_fs_after, bind.
  destruct (eth0_run target legacy_eth0_path w) as (Hr & Hfs & Hc & Hs).
  destruct (_maybe_remove_legacy_eth0 target legacy_eth0_path w) as [r1 w1].
  simpl in Hr, Hfs, Hc, Hs. subst r1. unfold LOG_info, emit.
  set (w2 := with_log _ w1).
  destruct (ipv6_run target ipv6_privacy_path w2 eq_refl) as (Hr & Hfs' & Hc' & Hs').
  destruct (_disable_ipv6_privacy_extensions target ipv6_privacy_path w2) as [r2 w3].
  simpl in Hr, Hfs', Hc', Hs'. subst r2.
  rewrite patch_hook_result. eexists. split; [done|]. simpl.
  rewrite Hfs', Hc', Hs'. subst w2. simpl. rewrite Hfs, Hc, Hs. done.
Qed.

Lemma apply_net_unfold target network_state network_config postup_alias w :
  network_state ≠ None ∨ network_config ≠ None →
  apply_net (Some target) network_state network_config postup_alias w
  = match if_truthy network_state with
    | Some f =>
        (ns <- net_from_state_file f ;;
         net_render_network_state target ns postup_alias ;; cleanup target) w
    | None =>
        match if_truthy network_config with
        | Some c =>
            (ns <- net_parse_net_config c ;;
             net_render_network_state target ns postup_alias ;; cleanup target) w
        | None => (Raises (UnboundLocalError "ns"), w)
        end
    end.
Proof.
  intros Hgiven. unfold apply_net.
  assert (bool_decide (network_state = None) && bool_decide (network_config = None)
          = false) as ->.
  { destruct Hgiven; [rewrite (bool_decide_false (network_state = None)) by done
                     |rewrite (bool_decide_false (network_config = None)) by done];
      [done|apply andb_false_r]. }
  unfold cleanup, bind at 1 2 3 4. simpl.
  destruct (if_truthy network_state) as [f|].
  - cbv beta iota delta [bind net_from_state_file ret raise].
    destruct (on_from_state_file f (fs w)); reflexivity.
  - destruct (if_truthy network_config) as [c|]; [|done].
    cbv beta iota delta [bind net_parse_net_config ret raise].
    destruct (on_parse_net_config c (fs w)); reflexivity.
Qed.

Lemma render_cleanup_run target ns postup_alias w :
  let w1 := with_call (render_network_state_call target ns postup_alias) w in
  match on_render_network_state target ns postup_alias (fs w) with
  | (Returns _, fs1) =>
      ∃ w', (net_render_network_state target ns postup_alias ;; cleanup target) w
            = (Returns tt, w')
            ∧ fs w' = cleanup_fs_after target fs1
            ∧ calls w' = calls w1 ∧ stderr w' = stderr w
  | (Raises e, fs1) =>
      (net_render_network_state target ns postup_alias ;; cleanup target) w
      = (Raises e, with_fs (fun _ => fs1) w1)
  end.
Proof.
  intros w1. unfold bind, net_render_network_state. fold w1.
  destruct (on_render_network_state target ns postup_alias (fs w)) as [[[]|e] fs1];
    [|done].
  destruct (cleanup_run target (with_fs (λ _, fs1) w1)) as (w' & -> & ? & ? & ?).
  by exists w'.
Qed.

Lemma apply_net_resolved target network_state network_config postup_alias ns w :
  (∃ f, if_truthy network_state = Some f ∧ on_from_state_file f (fs w) = Returns ns)
  ∨ (∃ c, if_truthy network_state = None ∧ if_truthy network_config = Some c
          ∧ on_parse_net_config c (fs w) = Returns ns) →
  ∃ c0 : call NetworkModel,
    is_probe c0 = false
    ∧ apply_net (Some target) network_state network_config postup_alias w
      = (net_render_network_state target ns postup_alias ;; cleanup target)
          (with_call c0 w).
Proof.
  intros Hsrc. rewrite apply_net_unfold.
  2:{ destruct Hsrc as [(f & Hf & _)|(c & _ & Hc & _)];
        [left|right]; intros ->; discriminate. }
  destruct Hsrc as [(f & -> & Hf)|(c & -> & -> & Hc)].
  - exists (from_state_file_call f). split; [done|].
    unfold bind at 1, net_from_state_file. by rewrite Hf.
  - exists (parse_net_config_call c). split; [done|].
    unfold bind at 1, net_parse_net_config. by rewrite Hc.
Qed.

Lemma cleanup_reaches_hooks target w :
  ∃ w3, cleanup target w
        = _patch_ifupdown_ipv6_mtu_hook target default_prehookfn default_posthookfn w3
        ∧ fs w3 = ipv6_fs_after (cfg_of target ipv6_privacy_path)
                    (eth0_fs_after (cfg_of target legacy_eth0_path) (fs w))
        ∧ calls w3 = calls w ∧ stderr w3 = stderr w.
Proof.
  unfold cleanup, bind.
  destruct (eth0_run target legacy_eth0_path w) as (Hr & Hfs & Hc & Hs).
  destruct (_maybe_remove_legacy_eth0 target legacy_eth0_path w) as [r1 w1].
  simpl in Hr, Hfs, Hc, Hs. subst r1. unfold LOG_info, emit.
  set (w2 := with_log _ w1).
  destruct (ipv6_run target ipv6_privacy_path w2 eq_refl) as (Hr & Hfs' & Hc' & Hs').
  destruct (_disable_ipv6_privacy_extensions target ipv6_privacy_path w2) as [r2 w3].
  simpl in Hr, Hfs', Hc', Hs'. subst r2.
  exists w3. split; [done|].
  rewrite Hfs', Hc', Hs'. subst w2. simpl. by rewrite Hfs, Hc, Hs.
Qed.

(** X8. Whatever the two legacy files hold, the reconcilers do not stop
    [apply_net].  When the model is resolved (from the state file, else from
    the configuration) and rendered without error, [apply_net] reaches the
    hook installer and ends as the hook installer ends: it runs in a world
    [w3] whose filesystem is the rendered one with the eth0 reconciliation
    and then the IPv6 reconciliation applied (the removal and the write
    inside the reconcilers taken as going through), with nothing written to
    standard error.  When [apply_net] returns normally, the final filesystem
    is that of [w3] with the two hooks written, and both hooks are in
    place with mode [0o755]. *)
Theorem apply_net_reaches_hook_install
    target network_state network_config postup_alias ns fs1 w :
  (∃ f, if_truthy network_state = Some f ∧ on_from_state_file f (fs w) = Returns ns)
  ∨ (∃ c, if_truthy network_state = None ∧ if_truthy network_config = Some c
          ∧ on_parse_net_config c (fs w) = Returns ns) →
  on_render_network_state target ns postup_alias (fs w) = (Returns tt, fs1) →
  let r := apply_net (Some target) network_state network_config postup_alias w in
  ∃ w3,
    r = _patch_ifupdown_ipv6_mtu_hook target default_prehookfn default_posthookfn w3
    ∧ fs w3 = ipv6_fs_after (cfg_of target ipv6_privacy_path)
                (eth0_fs_after (cfg_of target legacy_eth0_path) fs1)
    ∧ stderr w3 = stderr w
    ∧ (r.1 = Returns tt →
       fs r.2 = cleanup_fs_after target fs1
       ∧ fs r.2 !! join sep [target; default_prehookfn]
         = Some (Regular IFUPDOWN_IPV6_MTU_PRE_HOOK 493)
       ∧ fs r.2 !! join sep [target; default_posthookfn]
         = Some (Regular IFUPDOWN_IPV6_MTU_POST_HOOK 493)
       ∧ stderr r.2 = stderr w).
Proof.
  intros Hsrc Hrender r.
  assert (∃ w3,
            r = _patch_ifupdown_ipv6_mtu_hook target default_prehookfn
                  default_posthookfn w3
            ∧ fs w3 = ipv6_fs_after (cfg_of target ipv6_privacy_path)
                        (eth0_fs_after (cfg_of target legacy_eth0_path) fs1)
            ∧ stderr w3 = stderr w) as (w3 & Hr & Hfs & Hstderr).
  { subst r.
    destruct (apply_net_resolved target network_state network_config
                postup_alias ns w Hsrc) as (c0 & _ & ->).
    unfold bind at 1, net_render_network_state. simpl. rewrite Hrender.
    set (w1 := with_fs _ _).
    destruct (cleanup_reaches_hooks target w1) as (w3 & -> & Hfs & _ & Hstderr).
    exists w3. by split_and!. }
  exists w3. split_and!; [done..|].
  rewrite Hr. intros _. rewrite patch_hook_result. simpl.
  assert (hooks_fs_after target default_prehookfn default_posthookfn (fs w3)
          = cleanup_fs_after target fs1) as Hall.
  { unfold cleanup_fs_after. by rewrite Hfs. }
  unfold hooks_fs_after in Hall. split_and!.
  - exact Hall.
  - rewrite lookup_insert_ne by apply hook_paths_differ. apply lookup_insert_eq.
  - apply lookup_insert_eq.
  - by rewrite Hstderr.
Qed.

(** X9. [apply_net] stops at the first failing step.  When the chosen
    resolver raises, the exception goes to the caller with the filesystem
    and the log untouched and the renderer not called; when the renderer
    raises, the exception goes to the caller with the filesystem as the
    renderer left it: neither reconciler runs, no hook is written, nothing is
    logged. *)
Theorem apply_net_fail_fast target network_state network_config postup_alias e w :
  (∀ f, if_truthy network_state = Some f →
        on_from_state_file f (fs w) = Raises e →
        apply_net (Some target) network_state network_config postup_alias w
        = (Raises e, with_call (from_state_file_call f) w))
  ∧ (∀ c, if_truthy network_state = None → if_truthy network_config = Some c →
          on_parse_net_config c (fs w) = Raises e →
          apply_net (Some target) network_state network_config postup_alias w
          = (Raises e, with_call (parse_net_config_call c) w))
  ∧ (∀ ns fs1,
       (∃ f, if_truthy network_state = Some f
             ∧ on_from_state_file f (fs w) = Returns ns)
       ∨ (∃ c, if_truthy network_state = None ∧ if_truthy network_config = Some c
               ∧ on_parse_net_config c (fs w) = Returns ns) →
       on_render_network_state target ns postup_alias (fs w) = (Raises e, fs1) →
       let r := apply_net (Some target) network_state network_config postup_alias w in
       r.1 = Raises e ∧ fs r.2 = fs1 ∧ log r.2 = log w ∧ stderr r.2 = stderr w).
Proof.
  split_and!.
  - intros f Hstate Hf. rewrite apply_net_unfold.
    2:{ left. intros ->. discriminate. }
    rewrite Hstate. unfold bind at 1, net_from_state_file. by rewrite Hf.
  - intros c Hstate Hconfig Hc. rewrite apply_net_unfold.
    2:{ right. intros ->. discriminate. }
    rewrite Hstate, Hconfig. unfold bind at 1, net_parse_net_config. by rewrite Hc.
  - intros ns fs1 Hsrc Hrender r. subst r.
    destruct (apply_net_resolved target network_state network_config
                postup_alias ns w Hsrc) as (c0 & _ & ->).
    pose proof (render_cleanup_run target ns postup_alias (with_call c0 w)) as Hrun.
    simpl in Hrun. rewrite Hrender in Hrun. by rewrite Hrun.
Qed.

(** X10. The configuration is the fallback: when the state argument is
    [None] or the empty string and the configuration is a non-empty string,
    [apply_net] resolves the model with [parse_net_config], never calls
    [from_state_file], and hands the parsed model to the renderer. *)
Theorem apply_net_config_fallback target network_state c postup_alias w :
  if_truthy network_state = None →
  c ≠ "" →
  let r := apply_net (Some target) network_state (Some c) postup_alias w in
  (∀ p, from_state_file_call p ∉ drop (length (calls w)) (calls r.2))
  ∧ match on_parse_net_config c (fs w) with
    | Returns ns =>
        calls r.2
        = calls w ++ [parse_net_config_call c;
                      render_network_state_call target ns postup_alias]
    | Raises e => r.1 = Raises e ∧ calls r.2 = calls w ++ [parse_net_config_call c]
    end.
Proof.
  intros Hstate Hc r.
  assert (match on_parse_net_config c (fs w) with
          | Returns ns =>
              calls r.2
              = calls w ++ [parse_net_config_call c;
                            render_network_state_call target ns postup_alias]
          | Raises e =>
              r.1 = Raises e ∧ calls r.2 = calls w ++ [parse_net_config_call c]
          end) as Hrun.
  { assert (if_truthy (Some c) = Some c) as Hconfig
      by (unfold if_truthy; by rewrite bool_decide_false).
    destruct (on_parse_net_config c (fs w)) as [ns|e] eqn:Hparse.
    - assert (r = (net_render_network_state target ns postup_alias ;; cleanup target)
                    (with_call (parse_net_config_call c) w)) as ->.
      { subst r. rewrite apply_net_unfold by (right; discriminate).
        rewrite Hstate, Hconfig. unfold bind at 1, net_parse_net_config.
        by rewrite Hparse. }
      pose proof (render_cleanup_run target ns postup_alias
                    (with_call (parse_net_config_call c) w)) as Hrun.
      simpl in Hrun.
      destruct (on_render_network_state target ns postup_alias (fs w))
        as [[[]|e] fs1].
      + destruct Hrun as (w' & -> & _ & Hcalls & _). simpl.
        rewrite Hcalls. simpl. by rewrite <- app_assoc.
      + rewrite Hrun. simpl. by rewrite <- app_assoc.
    - assert (r = (Raises e, with_call (parse_net_config_call c) w)) as ->; [|done].
      subst r. rewrite apply_net_unfold by (right; discriminate).
      rewrite Hstate, Hconfig. unfold bind at 1, net_parse_net_config.
      by rewrite Hparse. }
  split; [|exact Hrun].
  intros p. destruct (on_parse_net_config c (fs w)) as [ns|e].
  - rewrite Hrun, drop_app_length.
    rewrite !not_elem_of_cons. split_and!; [done..|apply not_elem_of_nil].
  - destruct Hrun as [_ ->]. rewrite drop_app_length.
    rewrite !not_elem_of_cons. split_and!; [done|apply not_elem_of_nil].
Qed.

Lemma apply_net_missing_target_run network_state network_config postup_alias w :
  network_state ≠ None ∨ network_config ≠ None →
  apply_net None network_state network_config postup_alias w
  = (Raises (Exception "Must provide target"),
     with_stderr ("Must provide target" +:+ nl) w).
Proof.
  intros Hgiven. unfold apply_net.
  assert (bool_decide (network_state = None) && bool_decide (network_config = None)
          = false) as ->.
  { destruct Hgiven; [rewrite (bool_decide_false (network_state = None)) by done
                     |rewrite (bool_decide_false (network_config = None)) by done];
      [done|apply andb_false_r]. }
  done.
Qed.

(** X11. Without a target, and with at least one of the two inputs given,
    [apply_net] writes its message to standard error and raises before any
    collaborator is called. *)
Theorem apply_net_missing_target network_state network_config postup_alias w :
  network_state ≠ None ∨ network_config ≠ None →
  apply_net None network_state network_config postup_alias w
  = (Raises (Exception "Must provide target"),
     with_stderr ("Must provide target" +:+ nl) w).
Proof. apply apply_net_missing_target_run. Qed.

(** *** [detect_postup_alias] and [apply_net_main] *)

(** How [detect_postup_alias] ends, for every way the probe can end. *)
Ltac in_records := simpl; rewrite !elem_of_cons; auto 10.
Ltac not_in_records :=
  simpl;
  try match goal with |- ?x ∈ ?l → False => change (x ∉ l) end;
  rewrite !not_elem_of_cons; split_and!;
  [discriminate..|apply not_elem_of_nil].

Lemma detect_postup_alias_result target w :
  let probe := on_get_package_version "ifupdown" target (fs w) in
  let r := detect_postup_alias target w in
  r.1 = match probe with
        | Raises e => if is_Exception e then Returns false else Raises e
        | _ => Returns (decision probe)
        end
  ∧ fs r.2 = fs w ∧ stderr r.2 = stderr w
  ∧ calls r.2 = calls w ++ [get_package_version_call "ifupdown" target]
  ∧ (probe_warning ∈ emitted w r.2
     ↔ probed_semantic probe = None
       ∧ ∀ e, probe = Raises e → is_Exception e = true).
Proof.
  intros probe r. subst probe r.
  unfold detect_postup_alias, bind, try_except, LOG_info, LOG_debug, LOG_warn,
    emit, util_get_package_version, emitted, probe_warning. simpl.
  destruct (on_get_package_version "ifupdown" target (fs w))
    as [[pkg_ver|]|e] eqn:Hprobe; simpl.
  - unfold semantic_of, getitem, bind.
    destruct (pkg_ver !! "semantic_version") as [sv|]; simpl.
    2:{ rewrite <- !app_assoc, drop_app_length. split_and!; try done.
        split; [done|]. intros _. in_records. }
    destruct (pkg_ver !! "major") as [major|]; simpl.
    2:{ rewrite <- !app_assoc, drop_app_length. split_and!; try done.
        split; [done|]. intros _. in_records. }
    destruct (pkg_ver !! "minor") as [minor|]; simpl.
    2:{ rewrite <- !app_assoc, drop_app_length. split_and!; try done.
        split; [done|]. intros _. in_records. }
    destruct (pkg_ver !! "micro") as [micro|]; simpl.
    2:{ rewrite <- !app_assoc, drop_app_length. split_and!; try done.
        split; [done|]. intros _. in_records. }
    destruct (Z.ltb_spec sv 806); simpl.
    + rewrite bool_decide_true by done.
      rewrite <- !app_assoc, drop_app_length. split_and!; try done.
      split; [|by intros [? _]]. intros Hin. exfalso. revert Hin. not_in_records.
    + rewrite bool_decide_false by lia.
      rewrite <- !app_assoc, drop_app_length. split_and!; try done.
      split; [|by intros [? _]]. intros Hin. exfalso. revert Hin. not_in_records.
  - rewrite <- !app_assoc, drop_app_length. split_and!; try done.
    split; [done|]. intros _. in_records.
  - destruct (is_Exception e) eqn:Hexc; simpl.
    + rewrite <- !app_assoc, drop_app_length. split_and!; try done.
      split; [intros _; split; [done|by intros ? [= <-]]|].
      intros _. in_records.
    + rewrite drop_app_length. split_and!; try done.
      split.
      * intros Hin. exfalso. revert Hin. not_in_records.
      * intros [_ Habs]. specialize (Habs e eq_refl). congruence.
Qed.

(** X12. [detect_postup_alias] swallows only what derives from
    [Exception]: when the probe raises anything else ([SystemExit],
    [KeyboardInterrupt]), the same exception leaves [detect_postup_alias],
    without the fallback warning. *)
Theorem detect_postup_alias_propagates target e w :
  on_get_package_version "ifupdown" target (fs w) = Raises e →
  is_Exception e = false →
  let r := detect_postup_alias target w in
  r.1 = Raises e ∧ (probe_warning ∉ emitted w r.2) ∧ fs r.2 = fs w.
Proof.
  intros Hprobe Hexc r.
  destruct (detect_postup_alias_result target w) as (Hret & Hfs & _ & _ & Hwarn).
  fold r in Hret, Hfs, Hwarn. rewrite Hprobe in Hret, Hwarn. rewrite Hexc in Hret.
  split_and!; [done| |done].
  intros Hin. apply Hwarn in Hin as [_ Habs].
  specialize (Habs e eq_refl). congruence.
Qed.

(** X13. [detect_postup_alias] asks for the version of [ifupdown] in the
    target exactly once, and tells a failed probe from a recent version in
    the log: when no probe failure escapes, the fallback warning is logged
    exactly when the probe delivered no complete version (it raised, returned
    [None], or a field was missing); a version of 806 or more gives [False]
    without the warning. *)
Theorem detect_postup_alias_warns_on_failure target w :
  (∀ e, on_get_package_version "ifupdown" target (fs w) = Raises e →
        is_Exception e = true) →
  let probe := on_get_package_version "ifupdown" target (fs w) in
  let r := detect_postup_alias target w in
  calls r.2 = calls w ++ [get_package_version_call "ifupdown" target]
  ∧ (probe_warning ∈ emitted w r.2 ↔ probed_semantic probe = None)
  ∧ (∀ v, probed_semantic probe = Some v → 806 ≤ v →
          r.1 = Returns false ∧ (probe_warning ∉ emitted w r.2)).
Proof.
  intros Hexc probe r.
  destruct (detect_postup_alias_result target w) as (Hret & _ & _ & Hcalls & Hwarn).
  fold probe r in Hret, Hcalls, Hwarn. split_and!; [done| |].
  - rewrite Hwarn. split; [by intros [? _]|]. intros Hnone. split; [done|].
    subst probe. apply Hexc.
  - intros v Hv Hge. split.
    + rewrite Hret. subst probe.
      destruct (on_get_package_version "ifupdown" target (fs w))
        as [[pkg_ver|]|e]; try done.
      simpl in Hv |- *. rewrite Hv. by rewrite bool_decide_false by lia.
    + rewrite Hwarn. intros [Hnone _]. congruence.
Qed.

(** The calls of [apply_net] never include the version probe, and when the
    collaborators raise only what derives from [Exception], so does
    [apply_net]. *)
Lemma apply_net_summary target network_state network_config postup_alias w :
  let r := apply_net target network_state network_config postup_alias w in
  (∃ new, calls r.2 = calls w ++ new ∧ Forall (fun c => is_probe c = false) new)
  ∧ (raise_only_Exception → ∀ e, r.1 = Raises e → is_Exception e = true).
Proof.
  intros r.
  destruct (decide (network_state = None ∧ network_config = None)) as [[-> ->]|Hgiven].
  { subst r. split; [exists []; by rewrite app_nil_r|].
    intros _ e. unfold apply_net. simpl. by intros [= <-]. }
  assert (network_state ≠ None ∨ network_config ≠ None) as Hsome.
  { destruct network_state; [left; discriminate|].
    destruct network_config; [right; discriminate|]. by destruct Hgiven. }
  destruct target as [target|].
  2:{ subst r. rewrite apply_net_missing_target_run by done.
      split; [exists []; by rewrite app_nil_r|]. simpl. by intros _ e [= <-]. }
  subst r. rewrite apply_net_unfold by done.
  assert (∀ c0 (source : gmap string entry → completion NetworkModel),
            is_probe c0 = false →
            let r := (ns <- (fun w0 => (source (fs w0), with_call c0 w0)) ;;
                      net_render_network_state target ns postup_alias ;;
                      cleanup target) w in
            (∃ new, calls r.2 = calls w ++ new
                    ∧ Forall (fun c => is_probe c = false) new)
            ∧ ((∀ e, source (fs w) = Raises e → is_Exception e = true) →
               (∀ ns alias files e files',
                  on_render_network_state target ns alias files = (Raises e, files') →
                  is_Exception e = true) →
               ∀ e, r.1 = Raises e → is_Exception e = true)) as Hrun.
  { intros c0 source Hc0. unfold bind at 1.
    destruct (source (fs w)) as [ns|e] eqn:Hsource.
    2:{ simpl. split; [exists [c0]; split; [done|by constructor]|].
        intros Hs _ e' [= <-]. by apply Hs. }
    pose proof (render_cleanup_run target ns postup_alias (with_call c0 w)) as Hrn.
    simpl in Hrn.
    destruct (on_render_network_state target ns postup_alias (fs w))
      as [[[]|e] fs1] eqn:Hrender.
    - destruct Hrn as (w' & -> & _ & Hcalls & _). simpl. split.
      + exists [c0; render_network_state_call target ns postup_alias].
        rewrite Hcalls. simpl. rewrite <- app_assoc. split; [done|].
        by repeat constructor.
      + by intros _ _ e.
    - rewrite Hrn. simpl. split.
      + exists [c0; render_network_state_call target ns postup_alias].
        rewrite <- app_assoc. split; [done|]. by repeat constructor.
      + intros _ Hr e' [= <-]. by eapply Hr. }
  destruct (if_truthy network_state) as [f|].
  - destruct (Hrun (from_state_file_call f) (on_from_state_file f) eq_refl)
      as [Hcalls Hexc].
    split; [exact Hcalls|]. intros (Hs & _ & Hr & _). apply Hexc; [apply Hs|apply Hr].
  - destruct (if_truthy network_config) as [c|].
    + destruct (Hrun (parse_net_config_call c) (on_parse_net_config c) eq_refl)
        as [Hcalls Hexc].
      split; [exact Hcalls|]. intros (_ & Hp & Hr & _).
      apply Hexc; [apply Hp|apply Hr].
    + split; [exists []; by rewrite app_nil_r|]. simpl. by intros _ e [= <-].
Qed.

Lemma apply_net_main_unfold args w target :
  let state := command_state args in
  state_target state = Some target →
  truthy (state_network_config state) || truthy (state_network_state state) = true →
  apply_net_main args w
  = match effective_postup_alias args target w with
    | (Returns b, w1) =>
        match apply_net (Some target) (state_network_state state)
                (state_network_config state) (Some b)
                (with_log
                   (LogRecord INFO (VStr "Applying network configuration") [] None)
                   w1) with
        | (Returns _, w2) =>
            (Raises (SystemExit 0),
             with_log
               (LogRecord INFO (VStr "Applied network configuration successfully")
                  [] None) w2)
        | (Raises e, w2) =>
            if is_Exception e then
              (Raises (SystemExit 0),
               with_log
                 (LogRecord INFO (VStr "Applied network configuration successfully")
                    [] None)
                 (with_log
                    (LogRecord ERROR (VStr "failed to apply network config") []
                       (Some e)) w2))
            else (Raises e, w2)
        end
    | (Raises e, w1) => (Raises e, w1)
    end.
Proof.
  intros state Htarget Hinput.
  unfold apply_net_main, bind, try_except. fold state. rewrite Htarget.
  apply orb_true_iff in Hinput.
  assert (negb (truthy (state_network_config state))
          && negb (truthy (state_network_state state)) = false) as ->.
  { destruct Hinput as [->| ->]; simpl; [done|]. by rewrite andb_false_r. }
  simpl.
  destruct (effective_postup_alias args target w) as [[b|e] w1]; [|done].
  unfold LOG_info, emit.
  destruct (apply_net _ _ _ _ _) as [[[]|e] w2]; [done|].
  by destruct (is_Exception e).
Qed.

(** X14. The two usage errors [apply_net_main] detects itself end the
    process with status 2 after one line on standard error, before anything
    is probed, resolved, rendered, logged or written: no target in the
    command line or the environment; and a target but neither a non-empty
    state nor a non-empty configuration. *)
Theorem apply_net_main_usage_errors args w :
  let state := command_state args in
  (state_target state = None →
   apply_net_main args w
   = (Raises (SystemExit 2),
      with_stderr
        ("Unable to find target.  Use --target or set TARGET_MOUNT_POINT" +:+ nl) w))
  ∧ (∀ target,
       state_target state = Some target →
       truthy (state_network_config state) = false →
       truthy (state_network_state state) = false →
       apply_net_main args w
       = (Raises (SystemExit 2),
          with_stderr ("Must provide at least config or state" +:+ nl) w)).
Proof.
  intros state. split.
  - intros Htarget. unfold apply_net_main. fold state. by rewrite Htarget.
  - intros target Htarget Hconfig Hstate.
    unfold apply_net_main, bind. fold state. by rewrite Htarget, Hconfig, Hstate.
Qed.

(** X15. When the collaborators raise only what derives from [Exception],
    [apply_net_main] never returns and never lets an exception escape: every
    run ends in [sys.exit], and the exit status is 0 or 2. *)
Theorem apply_net_main_exit_status args w :
  raise_only_Exception →
  ∃ code, (apply_net_main args w).1 = Raises (SystemExit code)
          ∧ exit_status (apply_net_main args w).1 = code
          ∧ (code = 0 ∨ code = 2).
Proof.
  intros Hcollab.
  destruct (state_target (command_state args)) as [target|] eqn:Htarget.
  2:{ exists 2. unfold apply_net_main. rewrite Htarget. by split_and!; [..|right]. }
  destruct (truthy (state_network_config (command_state args))
            || truthy (state_network_state (command_state args))) eqn:Hinput.
  2:{ apply orb_false_iff in Hinput as [Hc Hs]. exists 2.
      unfold apply_net_main, bind. rewrite Htarget, Hc, Hs.
      by split_and!; [..|right]. }
  exists 0. rewrite (apply_net_main_unfold args w target Htarget Hinput).
  assert (∃ b w1, effective_postup_alias args target w = (Returns b, w1))
    as (b & w1 & ->).
  { unfold effective_postup_alias. destruct (args_postup_alias args) as [a|].
    - by eexists _, _.
    - destruct (detect_postup_alias_result target w) as (Hret & _).
      destruct (detect_postup_alias target w) as [r w1]. simpl in Hret.
      destruct Hcollab as (_ & _ & _ & Hprobe).
      destruct (on_get_package_version "ifupdown" target (fs w)) as [[?|]|e] eqn:Hp;
        subst r; try by eexists _, _.
      rewrite (Hprobe _ _ _ _ Hp). by eexists _, _. }
  match goal with
  | |- context [apply_net ?t ?s ?c ?a ?w0] =>
      destruct (apply_net_summary t s c a w0) as [_ Hexc];
      destruct (apply_net t s c a w0) as [[[]|e] w2]
  end.
  - by split_and!; [..|left].
  - simpl in Hexc. rewrite (Hexc Hcollab e eq_refl). by split_and!; [..|left].
Qed.

Lemma apply_net_main_calls args w target :
  let state := command_state args in
  state_target state = Some target →
  truthy (state_network_config state) || truthy (state_network_state state) = true →
  calls (apply_net_main args w).2
  = match effective_postup_alias args target w with
    | (Returns b, w1) =>
        calls (apply_net (Some target) (state_network_state state)
                 (state_network_config state) (Some b)
                 (with_log
                    (LogRecord INFO (VStr "Applying network configuration") [] None)
                    w1)).2
    | (Raises e, w1) => calls w1
    end.
Proof.
  intros state Htarget Hinput.
  rewrite (apply_net_main_unfold args w target Htarget Hinput). fold state.
  destruct (effective_postup_alias args target w) as [[b|e] w1]; [|done].
  destruct (apply_net _ _ _ _ _) as [[[]|e] w2]; [done|].
  by destruct (is_Exception e).
Qed.

(** X16. The command-line override replaces the probe.  With
    [--postup-alias] given, no run of [apply_net_main] asks for the version
    of [ifupdown]; without it, and with a target and an input, the version
    probe is the first call of the run and the only probe. *)
Theorem apply_net_main_probe args w :
  let new := drop (length (calls w)) (calls (apply_net_main args w).2) in
  (is_Some (args_postup_alias args) → Forall (fun c => is_probe c = false) new)
  ∧ (∀ target,
       args_postup_alias args = None →
       state_target (command_state args) = Some target →
       truthy (state_network_config (command_state args))
       || truthy (state_network_state (command_state args)) = true →
       ∃ rest, new = get_package_version_call "ifupdown" target :: rest
               ∧ Forall (fun c => is_probe c = false) rest).
Proof.
  intros new. subst new. split.
  - intros [a Ha].
    destruct (state_target (command_state args)) as [target|] eqn:Htarget.
    2:{ unfold apply_net_main. rewrite Htarget. simpl. by rewrite drop_all. }
    destruct (truthy (state_network_config (command_state args))
              || truthy (state_network_state (command_state args))) eqn:Hinput.
    2:{ apply orb_false_iff in Hinput as [Hc Hs].
        unfold apply_net_main, bind. rewrite Htarget, Hc, Hs. simpl.
        by rewrite drop_all. }
    rewrite (apply_net_main_calls args w target Htarget Hinput).
    unfold effective_postup_alias. rewrite Ha. simpl.
    match goal with
    | |- context [apply_net ?t ?s ?c ?a ?w0] =>
        destruct (apply_net_summary t s c a w0) as [(rest & -> & Hrest) _]
    end.
    simpl. by rewrite drop_app_length.
  - intros target Hnone Htarget Hinput.
    rewrite (apply_net_main_calls args w target Htarget Hinput).
    unfold effective_postup_alias. rewrite Hnone.
    destruct (detect_postup_alias_result target w) as (_ & _ & _ & Hcalls & _).
    destruct (detect_postup_alias target w) as [[b|e] w1]; simpl in Hcalls.
    + match goal with
      | |- context [apply_net ?t ?s ?c ?a ?w0] =>
          destruct (apply_net_summary t s c a w0) as [(rest & -> & Hrest) _]
      end.
      simpl. rewrite Hcalls, <- app_assoc, drop_app_length. by exists rest.
    + exists []. by rewrite Hcalls, drop_app_length.
Qed.

End OrchestrationMore.

(* ===================================================================== *)
(** ** Further properties of the content lines *)
(* ===================================================================== *)

Lemma string_app_cons (c : ascii) (s t : string) :
  String c s +:+ t = String c (s +:+ t).
Proof. reflexivity. Qed.

Lemma string_app_nil_r (s : string) : s +:+ "" = s.
Proof. induction s as [|c s IH]; [done|]. by rewrite string_app_cons, IH. Qed.

Lemma string_app_assoc (a b c : string) : (a +:+ b) +:+ c = a +:+ b +:+ c.
Proof. induction a as [|x a IH]; [done|]. by rewrite !string_app_cons, IH. Qed.

Lemma string_rev_app_rev_app (a b c : string) :
  String.rev_app (String.rev_app a b) c = String.rev_app b (a +:+ c).
Proof.
  revert b c. induction a as [|x a IH]; intros b c; [done|].
  cbn [String.rev_app]. by rewrite IH.
Qed.

Lemma string_rev_app_app (cur x l : string) :
  String.rev_app cur x +:+ l = String.rev_app cur (x +:+ l).
Proof.
  revert x. induction cur as [|y cur IH]; intros x; [done|].
  cbn [String.rev_app]. by rewrite IH.
Qed.

Lemma string_rev_rev_app (l cur : string) :
  String.rev (String.rev_app l cur) = String.rev cur +:+ l.
Proof.
  unfold String.rev.
  by rewrite string_rev_app_rev_app, string_app_nil_r, string_rev_app_app.
Qed.

(** A line without line break, closed by a line feed, is the first line. *)
Lemma splitlines_go_single_line (l cur rest : string) :
  single_line l = true →
  splitlines_go cur (l +:+ nl +:+ rest)
  = (String.rev cur +:+ l) :: splitlines_go "" rest.
Proof.
  rewrite <- string_rev_rev_app.
  revert cur. induction l as [|c l IH]; intros cur Hl.
  - by destruct rest.
  - simpl in Hl. apply andb_true_iff in Hl as [Hc Hl].
    rewrite string_app_cons. cbn [splitlines_go String.rev_app].
    apply negb_true_iff in Hc. rewrite Hc. by rewrite (IH _ Hl).
Qed.

(** Text that ends in a line feed splits on its own: the lines of what
    follows are appended. *)
Lemma splitlines_go_app (n : nat) :
  ∀ a cur rest,
    (String.length a ≤ n)%nat →
    splitlines_go cur ((a +:+ nl) +:+ rest)
    = splitlines_go cur (a +:+ nl) ++ splitlines_go "" rest.
Proof.
  induction n as [|n IH]; intros a cur rest Hlen.
  { destruct a; [|simpl in Hlen; lia]. by destruct rest. }
  destruct a as [|c a]; [by destruct rest|].
  simpl in Hlen. rewrite !string_app_cons. cbn [splitlines_go].
  destruct (islinebreak c) eqn:Hc.
  2:{ apply IH. lia. }
  rewrite <- app_comm_cons. f_equal.
  destruct (decide (c = "013"%char)) as [->|Hcr].
  - destruct a as [|d a]; [by destruct rest|].
    simpl in Hlen. rewrite !string_app_cons.
    destruct (decide (d = "010"%char)) as [->|Hd].
    + apply IH. lia.
    + transitivity (splitlines_go "" (String d ((a +:+ nl) +:+ rest))).
      { by destruct d as [[] [] [] [] [] [] [] []]. }
      transitivity (splitlines_go "" (String d (a +:+ nl)) ++ splitlines_go "" rest).
      { rewrite <- !string_app_cons. apply IH. simpl. lia. }
      f_equal. by destruct d as [[] [] [] [] [] [] [] []].
  - transitivity (splitlines_go "" ((a +:+ nl) +:+ rest)).
    { by destruct c as [[] [] [] [] [] [] [] []]. }
    rewrite IH by lia. f_equal.
    by destruct c as [[] [] [] [] [] [] [] []].
Qed.

Lemma list_comprehension_app {A B} (out : A → B) (cond : A → bool)
    (xs ys : list A) :
  list_comprehension out cond (xs ++ ys)
  = list_comprehension out cond xs ++ list_comprehension out cond ys.
Proof.
  induction xs as [|x xs IH]; [done|]. simpl. destruct (cond x); simpl; by rewrite IH.
Qed.

Lemma startswith_hash_first (c : string) : startswith ("#" +:+ c) "#" = true.
Proof. by destruct c. Qed.

(** X17. A comment line in the first column does not count: inserting the
    line [#comment] at the start of the text, or after any line feed, leaves
    the content lines as they were, so it cannot change what a reconciler
    decides. *)
Theorem content_lines_ignores_comment_line (a comment b : string) :
  single_line comment = true →
  a = "" ∨ (∃ a', a = a' +:+ nl) →
  content_lines (a +:+ "#" +:+ comment +:+ nl +:+ b) = content_lines (a +:+ b).
Proof.
  intros Hline Ha.
  assert (splitlines ("#" +:+ comment +:+ nl +:+ b)
          = ("#" +:+ comment) :: splitlines b) as Hfirst.
  { unfold splitlines.
    change ("#" +:+ comment +:+ nl +:+ b) with (("#" +:+ comment) +:+ nl +:+ b)
      at 1.
    rewrite <- string_app_assoc, string_app_assoc.
    by rewrite (splitlines_go_single_line ("#" +:+ comment) "" b). }
  unfold content_lines. destruct Ha as [->|[a' ->]].
  - change ("" +:+ ?x) with x. rewrite Hfirst. cbn [list_comprehension].
    by rewrite startswith_hash_first.
  - unfold splitlines in *.
    rewrite !(splitlines_go_app (String.length a') a' "" _ (le_n _)).
    rewrite Hfirst, !list_comprehension_app. f_equal. cbn [list_comprehension].
    by rewrite startswith_hash_first.
Qed.

Lemma rstrip_cons (c : ascii) (r : string) :
  rstrip (String c r)
  = match rstrip r with
    | "" => if isspace c then "" else String c ""
    | r' => String c r'
    end.
Proof. reflexivity. Qed.

Lemma rstrip_idem (s : string) : rstrip (rstrip s) = rstrip s.
Proof.
  induction s as [|c r IH]; [done|]. rewrite rstrip_cons.
  destruct (rstrip r) as [|d r'] eqn:Hr.
  - destruct (isspace c) eqn:Hc; [done|]. rewrite rstrip_cons. simpl. by rewrite Hc.
  - rewrite rstrip_cons. by rewrite IH.
Qed.

Lemma lstrip_rstrip_lstrip (s : string) :
  lstrip (rstrip (lstrip s)) = rstrip (lstrip s).
Proof.
  induction s as [|c r IH]; [done|]. cbn [lstrip].
  destruct (isspace c) eqn:Hc; [done|].
  rewrite rstrip_cons.
  destruct (rstrip r); rewrite ?Hc; cbn [lstrip]; by rewrite Hc.
Qed.

Lemma strip_stripped (s : string) :
  lstrip (strip s) = strip s ∧ rstrip (strip s) = strip s.
Proof. unfold strip. split; [apply lstrip_rstrip_lstrip|apply rstrip_idem]. Qed.

(** X18. Every content line is stripped: it has no leading and no trailing
    whitespace, so stripping it again changes nothing. *)
Theorem content_lines_stripped (contents : string) :
  Forall (fun l => lstrip l = l ∧ rstrip l = l ∧ strip l = l)
    (content_lines contents).
Proof.
  unfold content_lines.
  induction (splitlines contents) as [|f fs IH]; [constructor|]. simpl.
  destruct (negb (startswith f "#")); [|done].
  constructor; [|done].
  destruct (strip_stripped f) as [Hl Hr]. split_and!; [done..|].
  unfold strip at 1. by rewrite Hl, Hr.
Qed.

(* ===================================================================== *)
(** ** Properties of [curtin/block/lvm.py] *)
(* ===================================================================== *)

Lemma lvm_field_no_space (s : string) : lvm_field s = true → no_space s = true.
Proof.
  induction s as [|c r IH]; [done|]. simpl.
  rewrite !andb_true_iff. intros [[-> _] Hr]. by rewrite IH.
Qed.

Lemma lvm_field_no_separator (s : string) :
  lvm_field s = true → no_separator s = true.
Proof.
  induction s as [|c r IH]; [done|]. simpl.
  rewrite !andb_true_iff. intros [[_ ->] Hr]. by rewrite IH.
Qed.

Lemma no_space_app (a b : string) :
  no_space (a +:+ b) = no_space a && no_space b.
Proof.
  induction a as [|c a IH]; [done|]. rewrite string_app_cons. simpl.
  by rewrite IH, andb_assoc.
Qed.

Lemma islinebreak_isspace (c : ascii) : islinebreak c = true → isspace c = true.
Proof. by destruct c as [[] [] [] [] [] [] [] []]. Qed.

Lemma no_space_single_line (s : string) : no_space s = true → single_line s = true.
Proof.
  induction s as [|c r IH]; [done|]. simpl. rewrite !andb_true_iff.
  intros [Hc Hr]. split; [|by apply IH].
  destruct (islinebreak c) eqn:Hb; [|done].
  apply islinebreak_isspace in Hb. by rewrite Hb in Hc.
Qed.

Lemma single_line_app (a b : string) :
  single_line (a +:+ b) = single_line a && single_line b.
Proof.
  induction a as [|c a IH]; [done|]. rewrite string_app_cons. simpl.
  by rewrite IH, andb_assoc.
Qed.

Lemma lvm_indent_single_line (s : string) :
  lvm_indent s = true → single_line s = true.
Proof.
  induction s as [|c r IH]; [done|]. simpl. rewrite !andb_true_iff.
  intros [Hc Hr]. split; [|by apply IH].
  apply orb_true_iff in Hc as [Hc|Hc]; apply Ascii.eqb_eq in Hc; by subst c.
Qed.

Lemma lstrip_indent (i x : string) :
  lvm_indent i = true → lstrip (i +:+ x) = lstrip x.
Proof.
  induction i as [|c i IH]; [done|]. cbn [lvm_indent]. rewrite andb_true_iff.
  intros [Hc Hi]. rewrite string_app_cons. cbn [lstrip].
  apply orb_true_iff in Hc as [Hc|Hc]; apply Ascii.eqb_eq in Hc; subst c;
    cbn [isspace]; by apply IH.
Qed.

Lemma lstrip_no_space (s : string) : no_space s = true → lstrip s = s.
Proof.
  destruct s as [|c r]; [done|]. simpl. rewrite andb_true_iff.
  intros [Hc _]. apply negb_true_iff in Hc. by rewrite Hc.
Qed.

Lemma rstrip_no_space (s : string) : no_space s = true → rstrip s = s.
Proof.
  induction s as [|c r IH]; [done|]. simpl no_space. rewrite andb_true_iff.
  intros [Hc Hr]. apply negb_true_iff in Hc.
  rewrite rstrip_cons, (IH Hr). destruct r; [by rewrite Hc|done].
Qed.

Lemma rstrip_trailing_space (x : string) (c : ascii) :
  isspace c = true → rstrip (x +:+ String c "") = rstrip x.
Proof.
  intros Hc. induction x as [|d x IH].
  - change ("" +:+ String c "") with (String c ""). rewrite rstrip_cons.
    simpl. by rewrite Hc.
  - by rewrite string_app_cons, !rstrip_cons, IH.
Qed.

(** A row [indent mf=qf], closed by a line feed or not, strips to [mf=qf]. *)
Lemma strip_row (indent mf qf : string) :
  lvm_indent indent = true → lvm_field mf = true → lvm_field qf = true →
  strip (indent +:+ mf +:+ "=" +:+ qf) = mf +:+ "=" +:+ qf
  ∧ strip (indent +:+ (mf +:+ "=" +:+ qf) +:+ nl) = mf +:+ "=" +:+ qf.
Proof.
  intros Hi Hmf Hqf.
  assert (no_space (mf +:+ "=" +:+ qf) = true) as Hrow.
  { rewrite no_space_app, (lvm_field_no_space _ Hmf).
    change ("=" +:+ qf) with (String "=" qf). simpl.
    by apply lvm_field_no_space. }
  unfold strip. split.
  - by rewrite lstrip_indent, lstrip_no_space, rstrip_no_space.
  - rewrite lstrip_indent by done.
    assert (lstrip ((mf +:+ "=" +:+ qf) +:+ nl) = (mf +:+ "=" +:+ qf) +:+ nl) as ->.
    { destruct (mf +:+ "=" +:+ qf) as [|c r] eqn:Hx.
      - by destruct mf.
      - rewrite string_app_cons. cbn [lstrip]. simpl in Hrow.
        apply andb_true_iff in Hrow as [Hc _]. apply negb_true_iff in Hc.
        by rewrite Hc. }
    unfold nl. rewrite rstrip_trailing_space by done.
    by apply rstrip_no_space.
Qed.

Lemma string_rev_cons_app (c : ascii) (cur r : string) :
  String.rev (String c cur) +:+ r = String.rev cur +:+ String c r.
Proof.
  unfold String.rev. cbn [String.rev_app]. by rewrite !string_rev_app_app.
Qed.

Lemma split_go_no_separator (s cur : string) :
  no_separator s = true → split_go "=" cur s = [String.rev cur +:+ s].
Proof.
  revert cur. induction s as [|c r IH]; intros cur Hs.
  - by rewrite string_app_nil_r.
  - simpl in Hs. apply andb_true_iff in Hs as [Hc Hr].
    apply negb_true_iff in Hc. cbn [split_go]. rewrite Hc, (IH _ Hr).
    by rewrite string_rev_cons_app.
Qed.

Lemma split_go_row (mf qf cur : string) :
  no_separator mf = true → no_separator qf = true →
  split_go "=" cur (mf +:+ "=" +:+ qf) = [String.rev cur +:+ mf; qf].
Proof.
  intros Hmf Hqf. revert cur. induction mf as [|c r IH]; intros cur.
  - change ("" +:+ "=" +:+ qf) with (String "=" qf). cbn [split_go].
    change (Ascii.eqb "=" "=") with true. cbn iota.
    by rewrite string_app_nil_r, (split_go_no_separator qf "" Hqf).
  - simpl in Hmf. apply andb_true_iff in Hmf as [Hc Hr].
    apply negb_true_iff in Hc. rewrite string_app_cons. cbn [split_go].
    rewrite Hc, (IH Hr). by rewrite string_rev_cons_app.
Qed.

Lemma split_go_not_nil (s cur : string) : split_go "=" cur s ≠ [].
Proof.
  revert cur. induction s as [|c r IH]; intros cur; [done|].
  cbn [split_go]. by destruct (Ascii.eqb c "=").
Qed.

Lemma join_cons (sp p : string) (ps : list string) :
  ps ≠ [] → join sp (p :: ps) = p +:+ sp +:+ join sp ps.
Proof. by destruct ps. Qed.

Lemma join_split_go (s cur : string) :
  join "=" (split_go "=" cur s) = String.rev cur +:+ s.
Proof.
  revert cur. induction s as [|c r IH]; intros cur.
  - by rewrite string_app_nil_r.
  - cbn [split_go]. destruct (Ascii.eqb c "=") eqn:Hc.
    + apply Ascii.eqb_eq in Hc as ->.
      rewrite join_cons by apply split_go_not_nil. by rewrite IH.
    + by rewrite IH, string_rev_cons_app.
Qed.

Lemma splitlines_report (indent : string) (rows : list (string * string)) :
  lvm_indent indent = true →
  Forall (fun row => lvm_field row.1 = true ∧ lvm_field row.2 = true) rows →
  splitlines (lvm_report indent rows) = map (row_text indent) rows.
Proof.
  intros Hi Hrows. unfold splitlines.
  induction Hrows as [|[mf qf] rows [Hmf Hqf] _ IH]; [done|].
  cbn [lvm_report map]. simpl in Hmf, Hqf.
  rewrite splitlines_go_single_line; [by rewrite IH|].
  rewrite !single_line_app, (lvm_indent_single_line _ Hi).
  rewrite (no_space_single_line _ (lvm_field_no_space _ Hmf)).
  by rewrite (no_space_single_line _ (lvm_field_no_space _ Hqf)).
Qed.

Section LvmProperties.

Variable subp : list string → completion (string * string).

Lemma select_rows_pair (key mf qf : string) (rows : list (list string)) :
  select_rows key ([mf; qf] :: rows)
  = match select_rows key rows with
    | Done qfs => Done (if bool_decide (mf = key) then qf :: qfs else qfs)
    | Failed err => Failed err
    end.
Proof. reflexivity. Qed.

Lemma select_rows_report (key indent : string) (rows : list (string * string)) :
  lvm_indent indent = true →
  Forall (fun row => lvm_field row.1 = true ∧ lvm_field row.2 = true) rows →
  select_rows key (map (fun l => split "=" (strip l)) (map (row_text indent) rows))
  = Done (map snd (filter (fun row => row.1 = key) rows)).
Proof.
  intros Hi Hrows.
  induction Hrows as [|[mf qf] rows [Hmf Hqf] _ IH]; [done|].
  simpl in Hmf, Hqf. rewrite !map_cons. unfold row_text at 1. cbn [fst snd].
  destruct (strip_row indent mf qf Hi Hmf Hqf) as [-> _].
  unfold split in *. rewrite split_go_row by by apply lvm_field_no_separator.
  change (String.rev "" +:+ mf) with mf. rewrite select_rows_pair, IH.
  rewrite filter_cons. cbn [fst]. by case_bool_decide; case_decide.
Qed.

Lemma filter_lvm_info_report lvtool match_field query_field key indent rows err :
  lvm_indent indent = true →
  Forall (fun row => lvm_field row.1 = true ∧ lvm_field row.2 = true) rows →
  subp (display_command lvtool match_field query_field)
  = Returns (lvm_report indent rows, err) →
  _filter_lvm_info subp lvtool match_field query_field key
  = Done (map snd (filter (fun row => row.1 = key) rows)).
Proof.
  intros Hi Hrows Hsubp. unfold _filter_lvm_info.
  change [lvtool; "-C"; "--separator"; "="; "--noheadings"; "-o";
          join "," [match_field; query_field]]
    with (display_command lvtool match_field query_field).
  rewrite Hsubp, splitlines_report by done. by apply select_rows_report.
Qed.

(** X19. Reading a report back.  When [pvdisplay] (for
    [get_pvols_in_volgroup]) or [lvdisplay] (for [get_lvols_in_volgroup])
    prints one indented row [vg=name] per line, with fields free of
    whitespace and of the separator, the helper returns the names of exactly
    the rows of the volume group asked for, in the order of the report. *)
Theorem get_vols_in_volgroup_report vg_name indent rows err :
  lvm_indent indent = true →
  Forall (fun row => lvm_field row.1 = true ∧ lvm_field row.2 = true) rows →
  (subp (display_command "pvdisplay" "vg_name" "pv_name")
   = Returns (lvm_report indent rows, err) →
   get_pvols_in_volgroup subp vg_name
   = Done (map snd (filter (fun row => row.1 = vg_name) rows)))
  ∧ (subp (display_command "lvdisplay" "vg_name" "lv_name")
     = Returns (lvm_report indent rows, err) →
     get_lvols_in_volgroup subp vg_name
     = Done (map snd (filter (fun row => row.1 = vg_name) rows))).
Proof.
  intros Hi Hrows. split; intros Hsubp.
  - by eapply filter_lvm_info_report.
  - by eapply filter_lvm_info_report.
Qed.

Lemma select_rows_done (key : string) (rows : list (list string)) :
  (∃ qfs, select_rows key rows = Done qfs)
  ↔ Forall (fun row => length row = 2%nat) rows.
Proof.
  induction rows as [|row rows IH].
  - split; [constructor|by eexists].
  - rewrite Forall_cons, <- IH. cbn [select_rows].
    destruct row as [|mf [|qf [|x row]]]; simpl.
    + split; [by intros [? ?]|by intros [? _]].
    + split; [by intros [? ?]|by intros [? _]].
    + destruct (select_rows key rows) as [qfs|err].
      * split; [by eauto|by eexists].
      * split; [by intros [? ?]|by intros [_ [? ?]]].
    + split; [by intros [? ?]|by intros [? _]].
Qed.

Lemma select_rows_failed (key : string) (rows : list (list string)) err :
  select_rows key rows = Failed err →
  ∃ got, err = Unpack got ∧ got ≠ 2%nat
         ∧ Exists (fun row => length row = got) rows.
Proof.
  induction rows as [|row rows IH]; [done|]. cbn [select_rows].
  destruct row as [|mf [|qf [|x row]]].
  - intros [= <-]. exists 0%nat. split_and!; [done..|by left].
  - intros [= <-]. exists 1%nat. split_and!; [done..|by left].
  - destruct (select_rows key rows) as [qfs|err'] eqn:Hrest; [done|].
    intros [= <-]. destruct (IH eq_refl) as (got & -> & Hgot & Hex).
    exists got. split_and!; [done..|by right].
  - intros [= <-]. exists (S (S (S (length row)))). split_and!; [done|lia|by left].
Qed.

(** X20. [_filter_lvm_info] depends on every line of the output, not only
    on the matching ones.  It returns a list exactly when every line of the
    output, once stripped, splits at the separator into two fields; one line
    that does not (a blank line, a line without separator, a value that
    contains the separator) makes the whole call raise the [ValueError] of
    the unpacking, whatever key is asked for.  Empty output gives the empty
    list. *)
Theorem filter_lvm_info_unpacking lvtool match_field query_field key out err :
  subp (display_command lvtool match_field query_field) = Returns (out, err) →
  let fields := fun l => length (split "=" (strip l)) in
  ((∃ qfs, _filter_lvm_info subp lvtool match_field query_field key = Done qfs)
   ↔ Forall (fun l => fields l = 2%nat) (splitlines out))
  ∧ (∀ e, _filter_lvm_info subp lvtool match_field query_field key = Failed e →
          ∃ got, e = Unpack got ∧ got ≠ 2%nat
                 ∧ Exists (fun l => fields l = got) (splitlines out))
  ∧ (out = "" → _filter_lvm_info subp lvtool match_field query_field key = Done []).
Proof.
  intros Hsubp fields.
  assert (_filter_lvm_info subp lvtool match_field query_field key
          = select_rows key (map (fun l => split "=" (strip l)) (splitlines out)))
    as ->.
  { unfold _filter_lvm_info.
    change [lvtool; "-C"; "--separator"; "="; "--noheadings"; "-o";
            join "," [match_field; query_field]]
      with (display_command lvtool match_field query_field).
    by rewrite Hsubp. }
  split_and!.
  - rewrite select_rows_done. by rewrite Forall_map.
  - intros e He. destruct (select_rows_failed _ _ _ He) as (got & -> & Hgot & Hex).
    exists got. split_and!; [done..|]. by rewrite Exists_map in Hex.
  - by intros ->.
Qed.

(** X21. [split_lvm_name] returns the stripped output of [dmsetup
    splitname] cut at every separator: the parts are never empty as a list,
    joining them with the separator gives the stripped output back, and for
    an output [vg=lv] with fields free of whitespace and of the separator the
    parts are [[vg; lv]].  An exception of [util.subp] passes through. *)
Theorem split_lvm_name_parts full :
  (∀ out err,
     subp (splitname_command full) = Returns (out, err) →
     ∃ parts, split_lvm_name subp full = Done parts
              ∧ parts ≠ []
              ∧ join "=" parts = strip out
              ∧ (∀ indent vg lv,
                   lvm_indent indent = true → lvm_field vg = true →
                   lvm_field lv = true →
                   out = indent +:+ (vg +:+ "=" +:+ lv) +:+ nl →
                   parts = [vg; lv]))
  ∧ (∀ e, subp (splitname_command full) = Raises e →
          split_lvm_name subp full = Failed (Raised e)).
Proof.
  split.
  - intros out err Hsubp. exists (split "=" (strip out)). split_and!.
    + unfold split_lvm_name.
      change ["dmsetup"; "splitname"; full; "-c"; "--noheadings";
              "--separator"; "="; "-o"; "vg_name,lv_name"]
        with (splitname_command full).
      by rewrite Hsubp.
    + apply split_go_not_nil.
    + unfold split. by rewrite join_split_go.
    + intros indent vg lv Hi Hvg Hlv ->.
      destruct (strip_row indent vg lv Hi Hvg Hlv) as [_ ->].
      unfold split. by rewrite split_go_row by by apply lvm_field_no_separator.
  - intros e Hsubp. unfold split_lvm_name.
    change ["dmsetup"; "splitname"; full; "-c"; "--noheadings";
            "--separator"; "="; "-o"; "vg_name,lv_name"]
      with (splitname_command full).
    by rewrite Hsubp.
Qed.

Variable lsb_release : gmap string string.
Variable float_ge_14_04 : string → completion bool.

Lemma scan_loop_run (cache : bool) (cmds : list (list string)) (w : lvm_world) :
  let flagged := map (fun cmd => if cache then cmd ++ ["--cache"] else cmd) cmds in
  let r := scan_loop subp cache cmds w in
  lvm_log r.2 = lvm_log w
  ∧ match r.1 with
    | Done _ =>
        ran r.2 = ran w ++ flagged
        ∧ Forall (fun c => ∃ o, subp c = Returns o) flagged
    | Failed err =>
        ∃ before c after e,
          flagged = before ++ c :: after
          ∧ Forall (fun c => ∃ o, subp c = Returns o) before
          ∧ subp c = Raises e
          ∧ err = Raised e
          ∧ ran r.2 = ran w ++ before ++ [c]
    end.
Proof.
  revert w. induction cmds as [|cmd cmds IH]; intros w.
  { simpl. by rewrite app_nil_r. }
  cbn [scan_loop map].
  set (c := if cache then cmd ++ ["--cache"] else cmd).
  destruct (subp c) as [o|e] eqn:Hc.
  - specialize (IH {| ran := ran w ++ [c]; lvm_log := lvm_log w |}).
    destruct IH as [Hlog IH]. split; [done|].
    destruct (scan_loop subp cache cmds _) as [[[]|err] w']; simpl in *.
    + destruct IH as [-> Hall]. rewrite <- app_assoc. split; [done|].
      constructor; [by eexists|done].
    + destruct IH as (before & c' & after & e & -> & Hall & Hc' & -> & ->).
      exists (c :: before), c', after, e. rewrite <- app_assoc.
      split_and!; try done. constructor; [by eexists|done].
  - simpl. split; [done|]. eexists [], c, _, e. by split_and!.
Qed.

(** X22. The commands of [lvm_scan].  With a release that [float] reads,
    the scan hands [pvscan], [vgscan --mknodes] and [lvscan --all] to
    [util.subp] in that order, each with [--cache] appended exactly when the
    release is at least 14.04, and logs nothing; it stops at the first
    command that fails, whose exception it passes on, without running the
    later ones.  With a release that [float] rejects, the conversion error is
    raised before any command is run. *)
Theorem lvm_scan_commands (release : string) (w : lvm_world) :
  lsb_release !! "release" = Some release →
  release ≠ "UNAVAILABLE" →
  let r := lvm_scan subp lsb_release float_ge_14_04 w in
  match float_ge_14_04 release with
  | Raises e => r = (Failed (Raised e), w)
  | Returns cache =>
      lvm_log r.2 = lvm_log w
      ∧ match r.1 with
        | Done _ =>
            ran r.2 = ran w ++ scan_commands cache
            ∧ Forall (fun c => ∃ o, subp c = Returns o) (scan_commands cache)
        | Failed err =>
            ∃ before c after e,
              scan_commands cache = before ++ c :: after
              ∧ Forall (fun c => ∃ o, subp c = Returns o) before
              ∧ subp c = Raises e
              ∧ err = Raised e
              ∧ ran r.2 = ran w ++ before ++ [c]
        end
  end.
Proof.
  intros Hrelease Hne r. subst r. unfold lvm_scan.
  rewrite Hrelease, bool_decide_false by done.
  destruct (float_ge_14_04 release) as [cache|e]; [|done].
  apply scan_loop_run.
Qed.

(** X23. Without a usable release ([lsb_release] has no [release], or it
    is the text [UNAVAILABLE]), [lvm_scan] logs one warning and then does
    exactly what it does for release [14.04]. *)
Theorem lvm_scan_release_unavailable (w : lvm_world) :
  lsb_release !! "release" = None
  ∨ lsb_release !! "release" = Some "UNAVAILABLE" →
  lvm_scan subp lsb_release float_ge_14_04 w
  = lvm_scan subp (<["release" := "14.04"]> lsb_release) float_ge_14_04
      {| ran := ran w; lvm_log := lvm_log w ++ [release_warning] |}.
Proof.
  intros Hrelease. unfold lvm_scan at 2. rewrite lookup_insert_eq.
  rewrite bool_decide_false by done.
  unfold lvm_scan. by destruct Hrelease as [->| ->].
Qed.

End LvmProperties.

(* ===================================================================== *)
(** ** Properties of [curtin/version.py] *)
(* ===================================================================== *)

Lemma up_to_last_sep_cons (c : ascii) (r : string) :
  up_to_last_sep (String c r)
  = match up_to_last_sep r with
    | "" => if Ascii.eqb c "/" then "/" else ""
    | h => String c h
    end.
Proof. reflexivity. Qed.

Lemma up_to_last_sep_no_sep (f : string) :
  no_sep f = true → up_to_last_sep f = "".
Proof.
  induction f as [|c r IH]; [done|]. simpl no_sep. rewrite andb_true_iff.
  intros [Hc Hr]. apply negb_true_iff in Hc.
  by rewrite up_to_last_sep_cons, (IH Hr), Hc.
Qed.

Lemma up_to_last_sep_app (q f : string) :
  no_sep f = true → ends_with_sep q = true → up_to_last_sep (q +:+ f) = q.
Proof.
  intros Hf. induction q as [|c r IH]; [done|]. intros Hq.
  rewrite string_app_cons, up_to_last_sep_cons. destruct r as [|d r].
  - simpl in Hq. apply Ascii.eqb_eq in Hq as ->.
    change ("" +:+ f) with f. by rewrite (up_to_last_sep_no_sep f Hf).
  - rewrite IH by done. done.
Qed.

Lemma ends_with_sep_app_sep (a : string) : ends_with_sep (a +:+ "/") = true.
Proof.
  induction a as [|c r IH]; [done|]. rewrite string_app_cons.
  destruct r as [|d r]; [done|]. by rewrite string_app_cons in *.
Qed.

Lemma rstrip_sep_cons (c : ascii) (r : string) :
  rstrip_sep (String c r)
  = match rstrip_sep r with
    | "" => if Ascii.eqb c "/" then "" else String c ""
    | r' => String c r'
    end.
Proof. reflexivity. Qed.

Lemma rstrip_sep_empty (s : string) : rstrip_sep s = "" → all_sep s = true.
Proof.
  induction s as [|c r IH]; [done|]. rewrite rstrip_sep_cons.
  destruct (rstrip_sep r) eqn:Hr; [|done].
  destruct (Ascii.eqb c "/") eqn:Hc; [|done]. intros _. simpl.
  by rewrite Hc, IH.
Qed.

Lemma no_sep_startswith (f : string) : no_sep f = true → startswith f "/" = false.
Proof.
  destruct f as [|c r]; [done|]. simpl no_sep. rewrite andb_true_iff.
  intros [Hc _]. apply negb_true_iff, Ascii.eqb_neq in Hc.
  unfold startswith. cbn [String.prefix].
  destruct (ascii_dec "/" c) as [<-|]; [done|done].
Qed.

Lemma dirname_join_nonempty (path f : string) :
  path ≠ "" → no_sep f = true → os_path_dirname (os_path_join path f) ≠ "".
Proof.
  intros Hpath Hf.
  assert (∃ q, os_path_join path f = q +:+ f ∧ ends_with_sep q = true ∧ q ≠ "")
    as (q & -> & Hq & Hne).
  { unfold os_path_join. rewrite (no_sep_startswith f Hf).
    rewrite (bool_decide_false (path = "")) by done. simpl.
    destruct (ends_with_sep path) eqn:Hends.
    - by exists path.
    - exists (path +:+ "/"). rewrite string_app_assoc.
      split_and!; [done|apply ends_with_sep_app_sep|by destruct path]. }
  unfold os_path_dirname. rewrite (up_to_last_sep_app q f Hf Hq).
  rewrite bool_decide_false by done. simpl.
  destruct (all_sep q) eqn:Hall; simpl; [done|].
  intros Hempty. apply rstrip_sep_empty in Hempty. congruence.
Qed.

Section VersionProperties.

Variable path_exists : string → bool.
Variable getcwd : string.
Variable environ : gmap string string.
Variable read_text : string → completion string.
Variable chdir : string → completion unit.
Variable bzr_revno : string → completion string.
Variable old_version : string.

Lemma search_pythonpath_nonempty (paths : list string) (pathfile : string) :
  path_exists pathfile = false → no_sep pathfile = true →
  search_pythonpath path_exists paths pathfile ≠ Some "".
Proof.
  intros Hhere Hf. induction paths as [|path paths IH]; [done|].
  cbn [search_pythonpath].
  destruct (path_exists (os_path_join path pathfile)) eqn:Hex; [|done].
  intros [= Hd]. destruct (decide (path = "")) as [->|Hpath].
  - unfold os_path_join in Hex. rewrite (no_sep_startswith _ Hf) in Hex.
    simpl in Hex. change ("" +:+ pathfile) with pathfile in Hex. congruence.
  - by apply (dirname_join_nonempty path pathfile).
Qed.

Lemma find_path_truthy (pathfile : string) :
  getcwd ≠ "" → no_sep pathfile = true →
  if_truthy (_find_path path_exists getcwd environ pathfile)
  = _find_path path_exists getcwd environ pathfile.
Proof.
  intros Hcwd Hf.
  assert (_find_path path_exists getcwd environ pathfile ≠ Some "") as Hne.
  { unfold _find_path. destruct (path_exists pathfile) eqn:Hhere.
    - by intros [= ?].
    - destruct (environ !! "PYTHONPATH"); [|done].
      by apply search_pythonpath_nonempty. }
  destruct (_find_path _ _ _ _) as [d|]; [|done].
  unfold if_truthy. rewrite bool_decide_false; [done|]. by intros ->.
Qed.

(** X24. [_find_path] looks in the working directory first and then in the
    entries of [PYTHONPATH] from left to right, and stops at the first hit:
    a file in the working directory gives [os.getcwd()]; otherwise the first
    entry that holds the file gives the directory of the joined path, and
    the entries after it are not looked at; without a hit, or without
    [PYTHONPATH], the result is [None]. *)
Theorem find_path_order (pathfile : string) :
  (path_exists pathfile = true →
   _find_path path_exists getcwd environ pathfile = Some getcwd)
  ∧ (path_exists pathfile = false → environ !! "PYTHONPATH" = None →
     _find_path path_exists getcwd environ pathfile = None)
  ∧ (∀ pythonpath before path after,
       path_exists pathfile = false →
       environ !! "PYTHONPATH" = Some pythonpath →
       split ":" pythonpath = before ++ path :: after →
       Forall (fun q => path_exists (os_path_join q pathfile) = false) before →
       path_exists (os_path_join path pathfile) = true →
       _find_path path_exists getcwd environ pathfile
       = Some (os_path_dirname (os_path_join path pathfile)))
  ∧ (∀ pythonpath,
       path_exists pathfile = false →
       environ !! "PYTHONPATH" = Some pythonpath →
       Forall (fun q => path_exists (os_path_join q pathfile) = false)
         (split ":" pythonpath) →
       _find_path path_exists getcwd environ pathfile = None).
Proof.
  unfold _find_path. split_and!.
  - by intros ->.
  - by intros -> ->.
  - intros pythonpath before path after -> -> -> Hbefore Hhit.
    induction Hbefore as [|q before Hq _ IH]; simpl.
    + by rewrite Hhit.
    + by rewrite Hq.
  - intros pythonpath -> -> Hall.
    induction Hall as [|q paths Hq _ IH]; [done|]. simpl. by rewrite Hq.
Qed.

(** X25. [_find_path] never returns the empty string: for a file name
    without separator and a non-empty working directory the result is [None]
    or a non-empty directory, also when [PYTHONPATH] has empty entries, so
    the tests [if dotpath:] and [if bzrdir:] of [version_string] fail only
    for [None]. *)
Theorem find_path_not_empty (pathfile : string) :
  getcwd ≠ "" → no_sep pathfile = true →
  _find_path path_exists getcwd environ pathfile ≠ Some ""
  ∧ if_truthy (_find_path path_exists getcwd environ pathfile)
    = _find_path path_exists getcwd environ pathfile.
Proof.
  intros Hcwd Hf. split; [|by apply find_path_truthy].
  pose proof (find_path_truthy pathfile Hcwd Hf) as Htruthy.
  intros Heq. by rewrite Heq in Htruthy.
Qed.

(** X26. The version file takes precedence.  When [_find_path] finds
    [.version] in directory [dotpath], [version_string] is the stripped text
    of [dotpath/.version] (or the error of reading it), whether or not a
    [.bzr] directory exists: the working directory is not changed and [bzr]
    is not run. *)
Theorem version_string_from_file (dotpath : string) :
  getcwd ≠ "" →
  _find_path path_exists getcwd environ ".version" = Some dotpath →
  let r := version_string path_exists getcwd environ read_text chdir bzr_revno
             old_version in
  r.2 = []
  ∧ match read_text (os_path_join dotpath ".version") with
    | Returns contents => r.1 = Version (strip contents)
    | Raises e => r.1 = NoVersion (RaisedBy e)
    end.
Proof.
  intros Hcwd Hfound r. subst r. unfold version_string.
  rewrite (find_path_truthy ".version" Hcwd eq_refl), Hfound.
  by destruct (read_text (os_path_join dotpath ".version")).
Qed.

(** X27. The fallback to [bzr].  Without a [.version] file:
    when no [.bzr] is found either, [version_string] is [old_version] and
    nothing else happens; when [.bzr] is found in [bzrdir], the working
    directory of the process is changed to [bzrdir] (and stays changed),
    [bzr revno] is run there, and for ASCII output the version is
    [old_version~bzr] followed by the stripped output, so the suffix [~bzr]
    is there even when [bzr] prints nothing; for output that is not ASCII
    the call fails with the decoding error, after the change of
    directory. *)
Theorem version_string_from_bzr :
  getcwd ≠ "" →
  _find_path path_exists getcwd environ ".version" = None →
  let r := version_string path_exists getcwd environ read_text chdir bzr_revno
             old_version in
  (_find_path path_exists getcwd environ ".bzr" = None →
   r = (Version old_version, []))
  ∧ (∀ bzrdir out,
       _find_path path_exists getcwd environ ".bzr" = Some bzrdir →
       chdir bzrdir = Returns tt →
       bzr_revno bzrdir = Returns out →
       r.2 = [Chdir bzrdir; BzrRevno]
       ∧ (is_ascii out = true →
          r.1 = Version (old_version +:+ "~bzr" +:+ strip out))
       ∧ (is_ascii out = false → r.1 = NoVersion DecodeError)).
Proof.
  intros Hcwd Hnone r. subst r. unfold version_string.
  rewrite (find_path_truthy ".version" Hcwd eq_refl), Hnone.
  rewrite (find_path_truthy ".bzr" Hcwd eq_refl). split.
  - by intros ->.
  - intros bzrdir out -> -> ->. by destruct (is_ascii out).
Qed.

End VersionProperties.

(* ===================================================================== *)
(** ** The further properties at concrete inputs *)
(* ===================================================================== *)

Lemma reconcile_missing_file_witness :
  let w := world_of [] in
  fs w !! cfg_of "/target" "etc/x.cfg" = None
  ∧ startswith "etc/x.cfg" "/" = false
  ∧ _maybe_remove_legacy_eth0 "/target" "etc/x.cfg" w
    = (Returns tt, with_log (absent_record "/target/etc/x.cfg") w)
  ∧ _disable_ipv6_privacy_extensions "/target" "etc/x.cfg" w
    = (Returns tt, with_log (absent_record "/target/etc/x.cfg") w).
Proof.
  intros w.
  destruct (reconcile_missing_file "/target" "etc/x.cfg" w eq_refl)
    as (He & _ & Hi).
  split_and!; [reflexivity|reflexivity|exact He|exact (proj1 (Hi eq_refl))].
Defined.

Lemma reconcile_unreadable_file_witness :
  let w := world_of [("/target/etc/x.cfg", Irregular)] in
  fs w !! cfg_of "/target" "etc/x.cfg" = Some Irregular
  ∧ (_maybe_remove_legacy_eth0 "/target" "etc/x.cfg" w).1 = Returns tt
  ∧ fs (_maybe_remove_legacy_eth0 "/target" "etc/x.cfg" w).2 = fs w.
Proof.
  intros w.
  destruct (reconcile_unreadable_file "/target" "etc/x.cfg" w eq_refl)
    as (He & _).
  split_and!; [reflexivity|by rewrite He..].
Defined.

Lemma reconcile_frame_witness :
  let w := world_of [("/target/etc/x.cfg", Regular eth0_text 420);
                     ("/target/etc/hostname", Regular "node" 420)] in
  "/target/etc/hostname" ≠ cfg_of "/target" "etc/x.cfg"
  ∧ fs (_maybe_remove_legacy_eth0 "/target" "etc/x.cfg" w).2 !! "/target/etc/hostname"
    = Some (Regular "node" 420).
Proof.
  intros w.
  assert ("/target/etc/hostname" ≠ cfg_of "/target" "etc/x.cfg") as Hp
    by discriminate.
  split; [exact Hp|].
  destruct (reconcile_frame "/target" "etc/x.cfg" w _ Hp) as (He & _).
  rewrite He. reflexivity.
Defined.

Lemma reconcile_second_run_witness :
  let w := world_of [("/target/etc/x.cfg", Regular ipv6_privacy_text 420)] in
  let w1 := (_disable_ipv6_privacy_extensions "/target" "etc/x.cfg" w).2 in
  let w2 := (_disable_ipv6_privacy_extensions "/target" "etc/x.cfg" w1).2 in
  fs w !! cfg_of "/target" "etc/x.cfg" = Some (Regular ipv6_privacy_text 420)
  ∧ startswith "etc/x.cfg" "/" = false
  ∧ content_lines ipv6_privacy_text = ipv6_known_contents
  ∧ fs w2 = fs w1
  ∧ ipv6_outcome (cfg_of "/target" "etc/x.cfg") (emitted w1 w2) = Some Preserved.
Proof.
  intros w w1 w2.
  destruct (proj2 (reconcile_second_run "/target" "etc/x.cfg" ipv6_privacy_text 420 w
                     eq_refl) eq_refl eq_refl) as [Hfs Hout].
  split_and!; [reflexivity|reflexivity|reflexivity|exact Hfs|exact Hout].
Defined.

Lemma patch_hook_installs_witness :
  let w := world_of [] in
  let r := _patch_ifupdown_ipv6_mtu_hook "/target" default_prehookfn
             default_posthookfn w in
  r.1 = Returns tt
  ∧ fs r.2 !! "/target/etc/network/if-pre-up.d/mtuipv6"
    = Some (Regular IFUPDOWN_IPV6_MTU_PRE_HOOK 493)
  ∧ fs r.2 !! "/target/etc/network/if-up.d/mtuipv6"
    = Some (Regular IFUPDOWN_IPV6_MTU_POST_HOOK 493).
Proof.
  intros w r.
  assert (r.1 = Returns tt) as Hret by reflexivity.
  destruct (patch_hook_installs "/target" default_prehookfn default_posthookfn w Hret)
    as (Hpost & Hpre & _).
  split_and!; [exact Hret|exact (Hpre eq_refl eq_refl)|exact Hpost].
Defined.

Lemma apply_net_reaches_hook_install_witness :
  let collab := sample_collaborators (Returns None) no_environment in
  let w := world_of [("/tmp/state", Regular "state" 420);
                     ("/target/etc/network/interfaces.d/eth0.cfg",
                      Regular eth0_text 420)] in
  let r := apply_net (Some "/target") (Some "/tmp/state") None (Some false) w in
  on_from_state_file "/tmp/state" (fs w) = Returns "state"
  ∧ r.1 = Returns tt
  ∧ fs r.2 !! "/target/etc/network/interfaces" = Some (Regular "state" default_mode)
  ∧ fs r.2 !! "/target/etc/network/interfaces.d/eth0.cfg" = None
  ∧ fs r.2 !! "/target/etc/network/if-pre-up.d/mtuipv6"
    = Some (Regular IFUPDOWN_IPV6_MTU_PRE_HOOK 493)
  ∧ fs r.2 !! "/target/etc/network/if-up.d/mtuipv6"
    = Some (Regular IFUPDOWN_IPV6_MTU_POST_HOOK 493).
Proof.
  intros collab w r.
  assert (on_from_state_file "/tmp/state" (fs w) = Returns "state") as Hstate
    by reflexivity.
  assert (r.1 = Returns tt) as Hret by (vm_compute; reflexivity).
  destruct (apply_net_reaches_hook_install "/target" (Some "/tmp/state") None
              (Some false) "state" _ w
              (or_introl (ex_intro _ "/tmp/state" (conj eq_refl Hstate))) eq_refl)
    as (w3 & _ & _ & _ & Hdone).
  destruct (Hdone Hret) as (Hfs & Hpre & Hpost & _).
  split_and!; [exact Hstate|exact Hret| | |exact Hpre|exact Hpost].
  - fold r in Hfs. rewrite Hfs. vm_compute. reflexivity.
  - fold r in Hfs. rewrite Hfs. vm_compute. reflexivity.
Defined.

Lemma apply_net_fail_fast_witness :
  let collab := broken_renderer in
  let w := world_of [("/tmp/state", Regular "state" 420);
                     ("/target/etc/network/interfaces.d/eth0.cfg",
                      Regular eth0_text 420)] in
  let r := apply_net (Some "/target") (Some "/tmp/state") None (Some false) w in
  r.1 = Raises (OSError "No space left on device")
  ∧ fs r.2 !! "/target/etc/network/interfaces.d/eth0.cfg"
    = Some (Regular eth0_text 420)
  ∧ fs r.2 !! "/target/etc/network/if-up.d/mtuipv6" = None
  ∧ log r.2 = [].
Proof.
  intros collab w r.
  destruct (apply_net_fail_fast "/target" (Some "/tmp/state") None (Some false)
              (OSError "No space left on device") w) as (_ & _ & Hrender).
  destruct (Hrender "state" _
              (or_introl (ex_intro _ "/tmp/state" (conj eq_refl eq_refl))) eq_refl)
    as (Hret & Hfs & Hlog & _).
  fold r in Hret, Hfs, Hlog.
  split_and!; [exact Hret| | |exact Hlog]; rewrite Hfs; vm_compute; reflexivity.
Defined.

Lemma apply_net_config_fallback_witness :
  let collab := sample_collaborators (Returns None) no_environment in
  let w := world_of [("/tmp/config", Regular "config" 420)] in
  let r := apply_net (Some "/target") (Some "") (Some "/tmp/config") None w in
  if_truthy (Some "") = None ∧ "/tmp/config" ≠ ""
  ∧ calls r.2
    = [parse_net_config_call "/tmp/config";
       render_network_state_call "/target" "config" None].
Proof.
  intros collab w r.
  assert ("/tmp/config" ≠ "") as Hc by discriminate.
  destruct (apply_net_config_fallback "/target" (Some "") "/tmp/config" None w
              eq_refl Hc) as [_ Hcalls].
  split_and!; [reflexivity|exact Hc|exact Hcalls].
Defined.

Lemma apply_net_missing_target_witness :
  let collab := sample_collaborators (Returns None) no_environment in
  let w := world_of [] in
  (Some "/tmp/state" ≠ None ∨ (None : option string) ≠ None)
  ∧ (apply_net None (Some "/tmp/state") None None w).1
    = Raises (Exception "Must provide target").
Proof.
  intros collab w.
  assert (Some "/tmp/state" ≠ None ∨ (None : option string) ≠ None) as Hgiven
    by (left; discriminate).
  split; [exact Hgiven|].
  by rewrite (apply_net_missing_target (Some "/tmp/state") None None w Hgiven).
Defined.

Lemma detect_postup_alias_propagates_witness :
  let collab := sample_collaborators (Raises KeyboardInterrupt) no_environment in
  let w := world_of [] in
  on_get_package_version "ifupdown" "/target" (fs w) = Raises KeyboardInterrupt
  ∧ is_Exception KeyboardInterrupt = false
  ∧ (detect_postup_alias "/target" w).1 = Raises KeyboardInterrupt.
Proof.
  intros collab w.
  assert (on_get_package_version "ifupdown" "/target" (fs w)
          = Raises KeyboardInterrupt) as Hprobe by reflexivity.
  destruct (detect_postup_alias_propagates "/target" KeyboardInterrupt w
              Hprobe eq_refl) as (Hret & _).
  split_and!; [exact Hprobe|reflexivity|exact Hret].
Defined.

Lemma detect_postup_alias_warns_on_failure_witness :
  let collab := sample_collaborators (Returns (Some recent_ifupdown)) no_environment in
  let w := world_of [] in
  (∀ e, on_get_package_version "ifupdown" "/target" (fs w) = Raises e →
        is_Exception e = true)
  ∧ (detect_postup_alias "/target" w).1 = Returns false
  ∧ probe_warning ∉ emitted w (detect_postup_alias "/target" w).2.
Proof.
  intros collab w.
  assert (∀ e, on_get_package_version "ifupdown" "/target" (fs w) = Raises e →
               is_Exception e = true) as Hexc by discriminate.
  destruct (detect_postup_alias_warns_on_failure "/target" w Hexc)
    as (_ & _ & Hrecent).
  split; [exact Hexc|].
  apply (Hrecent 806); [reflexivity|lia].
Defined.

Lemma apply_net_main_usage_errors_witness :
  let collab := sample_collaborators (Returns None) no_environment in
  let missing_target :=
    {| args_net_state := Some "/tmp/state"; args_target := None;
       args_postup_alias := None; args_net_config := None |} in
  let missing_input :=
    {| args_net_state := Some ""; args_target := Some "/target";
       args_postup_alias := None; args_net_config := None |} in
  let w := world_of [] in
  state_target (command_state missing_target) = None
  ∧ exit_status (apply_net_main missing_target w).1 = 2
  ∧ state_target (command_state missing_input) = Some "/target"
  ∧ exit_status (apply_net_main missing_input w).1 = 2
  ∧ calls (apply_net_main missing_input w).2 = [].
Proof.
  intros collab missing_target missing_input w.
  assert (state_target (command_state missing_target) = None) as Hnone
    by reflexivity.
  assert (state_target (command_state missing_input) = Some "/target") as Hsome
    by reflexivity.
  assert (truthy (state_network_config (command_state missing_input)) = false)
    as Hconfig by reflexivity.
  assert (truthy (state_network_state (command_state missing_input)) = false)
    as Hstate by reflexivity.
  pose proof (proj1 (apply_net_main_usage_errors missing_target w) Hnone) as H1.
  pose proof (proj2 (apply_net_main_usage_errors missing_input w) "/target"
                Hsome Hconfig Hstate) as H2.
  split_and!; [exact Hnone|by rewrite H1|exact Hsome|by rewrite H2..].
Defined.

Lemma sample_raise_only_Exception :
  @raise_only_Exception string (sample_collaborators (Returns None) no_environment).
Proof.
  unfold raise_only_Exception. simpl. unfold read_model. split_and!.
  - intros path files e. destruct (files !! path) as [[]|]; by intros [= <-].
  - intros path files e. destruct (files !! path) as [[]|]; by intros [= <-].
  - by intros.
  - by intros.
Defined.

Lemma apply_net_main_exit_status_witness :
  let collab := sample_collaborators (Returns None) no_environment in
  let args :=
    {| args_net_state := Some "/tmp/state"; args_target := Some "/target";
       args_postup_alias := None; args_net_config := None |} in
  let w := world_of [] in
  raise_only_Exception
  ∧ ∃ code, (apply_net_main args w).1 = Raises (SystemExit code)
            ∧ (code = 0 ∨ code = 2).
Proof.
  intros collab args w. split; [exact sample_raise_only_Exception|].
  destruct (apply_net_main_exit_status args w sample_raise_only_Exception)
    as (code & Hexit & _ & Hcode).
  by exists code.
Defined.

Lemma apply_net_main_probe_witness :
  let collab := sample_collaborators (Returns None) no_environment in
  let args :=
    {| args_net_state := Some "/tmp/state"; args_target := Some "/target";
       args_postup_alias := Some "true"; args_net_config := None |} in
  let w := world_of [("/tmp/state", Regular "state" 420)] in
  is_Some (args_postup_alias args)
  ∧ Forall (fun c => is_probe c = false)
      (drop (length (calls w)) (calls (apply_net_main args w).2)).
Proof.
  intros collab args w.
  assert (is_Some (args_postup_alias args)) as Hgiven by (by eexists).
  split; [exact Hgiven|].
  exact (proj1 (apply_net_main_probe args w) Hgiven).
Defined.

Lemma content_lines_ignores_comment_line_witness :
  single_line " managed by hand" = true
  ∧ ("" = "" ∨ ∃ a', "" = a' +:+ nl)
  ∧ content_lines ("" +:+ "#" +:+ " managed by hand" +:+ nl +:+ eth0_text)
    = content_lines ("" +:+ eth0_text).
Proof.
  assert ("" = "" ∨ ∃ a', "" = a' +:+ nl) as Ha by (by left).
  split_and!; [reflexivity|exact Ha|].
  apply (content_lines_ignores_comment_line "" " managed by hand" eth0_text
           eq_refl Ha).
Defined.

Lemma get_vols_in_volgroup_report_witness :
  lvm_indent "  " = true
  ∧ Forall (fun row => lvm_field row.1 = true ∧ lvm_field row.2 = true) sample_rows
  ∧ get_pvols_in_volgroup sample_subp "vg0" = Done ["/dev/sda1"; "/dev/sdc1"]
  ∧ get_pvols_in_volgroup sample_subp "vg9" = Done [].
Proof.
  assert (Forall (fun row => lvm_field row.1 = true ∧ lvm_field row.2 = true)
            sample_rows) as Hrows by (repeat constructor).
  split_and!; [reflexivity|exact Hrows|..].
  - apply (proj1 (get_vols_in_volgroup_report sample_subp "vg0" "  " sample_rows ""
                    eq_refl Hrows) eq_refl).
  - apply (proj1 (get_vols_in_volgroup_report sample_subp "vg9" "  " sample_rows ""
                    eq_refl Hrows) eq_refl).
Defined.

Lemma filter_lvm_info_unpacking_witness :
  let out := "  vg0=root" +:+ nl +:+ nl +:+ "  vg0=swap" +:+ nl in
  sample_subp (display_command "lvdisplay" "vg_name" "lv_name") = Returns (out, "")
  ∧ ¬ Forall (fun l => length (split "=" (strip l)) = 2%nat) (splitlines out)
  ∧ get_lvols_in_volgroup sample_subp "vg0" = Failed (Unpack 1)
  ∧ ¬ ∃ qfs, get_lvols_in_volgroup sample_subp "vg1" = Done qfs.
Proof.
  intros out.
  assert (¬ Forall (fun l => length (split "=" (strip l)) = 2%nat) (splitlines out))
    as Hbad.
  { intros Hall. apply Forall_cons in Hall as [_ Hall].
    by apply Forall_cons in Hall as [Habs _]. }
  destruct (filter_lvm_info_unpacking sample_subp "lvdisplay" "vg_name" "lv_name"
              "vg1" out "" eq_refl) as (Hiff & _).
  split_and!; [reflexivity|exact Hbad|reflexivity|].
  intros Hdone. by apply Hbad, Hiff.
Defined.

Lemma split_lvm_name_parts_witness :
  sample_subp (splitname_command "vg0-root")
  = Returns ("  " +:+ ("vg0" +:+ "=" +:+ "root") +:+ nl, "")
  ∧ split_lvm_name sample_subp "vg0-root" = Done ["vg0"; "root"].
Proof.
  destruct (proj1 (split_lvm_name_parts sample_subp "vg0-root") _ "" eq_refl)
    as (parts & Hparts & _ & _ & Hrow).
  split; [reflexivity|].
  rewrite Hparts. f_equal.
  by apply (Hrow "  " "vg0" "root").
Defined.

Lemma lvm_scan_commands_witness :
  let lsb : gmap string string := <["release" := "16.04"]> ∅ in
  let w := {| ran := []; lvm_log := [] |} in
  let r := lvm_scan sample_subp lsb sample_float_ge w in
  lsb !! "release" = Some "16.04" ∧ "16.04" ≠ "UNAVAILABLE"
  ∧ sample_float_ge "16.04" = Returns true
  ∧ lvm_log r.2 = []
  ∧ ∃ before c after e,
      scan_commands true = before ++ c :: after
      ∧ subp_failed sample_subp c e
      ∧ r.1 = Failed (Raised e)
      ∧ ran r.2 = before ++ [c].
Proof.
  intros lsb w r.
  assert ("16.04" ≠ "UNAVAILABLE") as Hne by discriminate.
  pose proof (lvm_scan_commands sample_subp lsb sample_float_ge "16.04" w
                eq_refl Hne) as Hrun.
  fold r in Hrun.
  assert (sample_float_ge "16.04" = Returns true) as Hfloat by reflexivity.
  rewrite Hfloat in Hrun. destruct Hrun as [Hlog Hrun].
  assert (r.1 = Failed (Raised (OSError "vgscan failed"))) as Hret by reflexivity.
  rewrite Hret in Hrun.
  destruct Hrun as (before & c & after & e & Hcmds & _ & Hc & [= <-] & Hran).
  split_and!; [reflexivity|exact Hne|exact Hfloat|exact Hlog|].
  exists before, c, after, (OSError "vgscan failed").
  split_and!; [exact Hcmds|exact Hc|exact Hret|exact Hran].
Defined.

Lemma lvm_scan_release_unavailable_witness :
  let lsb : gmap string string := <["release" := "UNAVAILABLE"]> ∅ in
  let w := {| ran := []; lvm_log := [] |} in
  (lsb !! "release" = None ∨ lsb !! "release" = Some "UNAVAILABLE")
  ∧ lvm_scan sample_subp lsb sample_float_ge w
    = lvm_scan sample_subp (<["release" := "14.04"]> lsb) sample_float_ge
        {| ran := []; lvm_log := [release_warning] |}.
Proof.
  intros lsb w.
  assert (lsb !! "release" = None ∨ lsb !! "release" = Some "UNAVAILABLE")
    as Hrelease by (by right).
  split; [exact Hrelease|].
  apply (lvm_scan_release_unavailable sample_subp lsb sample_float_ge w Hrelease).
Defined.

Lemma find_path_order_witness :
  sample_exists ".bzr" = false
  ∧ sample_environ !! "PYTHONPATH" = Some ":/opt/lib:/src/curtin"
  ∧ split ":" ":/opt/lib:/src/curtin" = [""; "/opt/lib"] ++ "/src/curtin" :: []
  ∧ _find_path sample_exists "/root" sample_environ ".bzr" = Some "/src/curtin".
Proof.
  destruct (find_path_order sample_exists "/root" sample_environ ".bzr")
    as (_ & _ & Hhit & _).
  split_and!; [reflexivity..|].
  apply (Hhit ":/opt/lib:/src/curtin" [""; "/opt/lib"] "/src/curtin" []);
    [reflexivity..| |reflexivity].
  by repeat constructor.
Defined.

Lemma find_path_not_empty_witness :
  "/root" ≠ "" ∧ no_sep ".bzr" = true
  ∧ if_truthy (_find_path sample_exists "/root" sample_environ ".bzr")
    = Some "/src/curtin".
Proof.
  assert ("/root" ≠ "") as Hcwd by discriminate.
  destruct (find_path_not_empty sample_exists "/root" sample_environ ".bzr"
              Hcwd eq_refl) as [_ Htruthy].
  split_and!; [exact Hcwd|reflexivity|].
  rewrite Htruthy. reflexivity.
Defined.

Lemma version_string_from_file_witness :
  let r := version_string installed_exists "/usr/share/curtin" ∅ installed_read
             (fun _ => Returns tt) (fun _ => Returns "470") "0.1.0" in
  "/usr/share/curtin" ≠ ""
  ∧ _find_path installed_exists "/usr/share/curtin" ∅ ".version"
    = Some "/usr/share/curtin"
  ∧ r = (Version "0.1.0~bzr470", []).
Proof.
  intros r.
  assert ("/usr/share/curtin" ≠ "") as Hcwd by discriminate.
  destruct (version_string_from_file installed_exists "/usr/share/curtin" ∅
              installed_read (fun _ => Returns tt) (fun _ => Returns "470") "0.1.0"
              "/usr/share/curtin" Hcwd eq_refl) as [Hactions Hversion].
  split_and!; [exact Hcwd|reflexivity|].
  fold r in Hactions, Hversion.
  assert (installed_read (os_path_join "/usr/share/curtin" ".version")
          = Returns ("0.1.0~bzr470" +:+ nl)) as Hread by reflexivity.
  rewrite Hread in Hversion.
  destruct r as [v actions]. simpl in Hactions, Hversion. subst. reflexivity.
Defined.

Lemma version_string_from_bzr_witness :
  let r := version_string sample_exists "/root" sample_environ
             (fun _ => Raises (OSError "No such file or directory"))
             (fun _ => Returns tt) (fun _ => Returns nl) "0.1.0" in
  "/root" ≠ ""
  ∧ _find_path sample_exists "/root" sample_environ ".version" = None
  ∧ _find_path sample_exists "/root" sample_environ ".bzr" = Some "/src/curtin"
  ∧ r = (Version "0.1.0~bzr", [Chdir "/src/curtin"; BzrRevno]).
Proof.
  intros r.
  assert ("/root" ≠ "") as Hcwd by discriminate.
  destruct (version_string_from_bzr sample_exists "/root" sample_environ
              (fun _ => Raises (OSError "No such file or directory"))
              (fun _ => Returns tt) (fun _ => Returns nl) "0.1.0" Hcwd eq_refl)
    as [_ Hbzr].
  destruct (Hbzr "/src/curtin" nl eq_refl eq_refl eq_refl) as (Hactions & Hv & _).
  split_and!; [exact Hcwd|reflexivity|reflexivity|].
  fold r in Hactions, Hv. specialize (Hv eq_refl).
  destruct r as [v actions]. simpl in Hactions, Hv. subst. reflexivity.
Defined.
